(** * CryptoGraph dashboard: a shallow embedding of [dashboard.py]

    The script loads a pickled backtest portfolio (memoised by Streamlit's
    [st.cache_resource]), derives the display series (trade log, equity
    value, returns, price frame), composes the price chart with its trade
    markers, re-themes two delegated charts and prints three headline
    metrics and the statistics table.

    Modelling choices.
    - float64 numbers are Rocq's primitive binary64 floats ([PrimFloat]),
      so division, subtraction and multiplication are the IEEE ones.
    - A pandas Series is the list of its values; a DataFrame is the
      insertion-ordered list of its named columns together with its row
      index.  Row labels are positions (the time index of the pickled
      series is not inspected by the script).
    - Attribute access on the opaque portfolio object is a partial
      function: an absent attribute raises [AttributeError], and
      [hasattr] is the probe that reports whether it is present.
    - Python exceptions are an inductive type and the script runs in a
      state-and-error monad whose state is the process-wide resource
      cache, the log of storage reads and the elements rendered so far. *)

From Stdlib Require Import ZArith List String Ascii Bool Floats Lia DecimalString.
From stdpp Require Import gmap strings.
Import ListNotations.

Set Warnings "-inexact-float".
Local Open Scope Z_scope.
Local Open Scope string_scope.

(** ** Exceptions and results *)

Inductive exn : Type :=
| AttributeError (attr : string)
| KeyError (key : string)
| IndexError
| NameError (name : string)
| FileNotFoundError (path : string)
| UnpicklingError (path : string).

Inductive result (A : Type) : Type :=
| Ok (a : A)
| Raise (e : exn).
Arguments Ok {A} a.
Arguments Raise {A} e.

#[global] Instance result_ret : MRet result := fun A a => Ok a.
#[global] Instance result_bind : MBind result := fun A B k r =>
  match r with
  | Ok a => k a
  | Raise e => Raise e
  end.

#[global] Instance result_fmap : FMap result := fun A B f r =>
  match r with
  | Ok a => Ok (f a)
  | Raise e => Raise e
  end.

(** ** pandas: Series and DataFrame *)

Inductive cell : Type :=
| CInt (z : Z)
| CFloat (f : float)
| CStr (s : string).

(** A float64 Series, rows labelled by position. *)
Definition Series := list float.

Record DataFrame (A : Type) : Type := mkDataFrame {
  df_index : list Z;
  df_data : list (string * list A)
}.
Arguments mkDataFrame {A} df_index df_data.
Arguments df_index {A} d.
Arguments df_data {A} d.

Definition columns {A} (df : DataFrame A) : list string := map fst (df_data df).

(** [len(df)]: the number of rows. *)
Definition len {A} (df : DataFrame A) : nat := length (df_index df).

(** Every column is as long as the index (pandas keeps this invariant). *)
Definition well_formed {A} (df : DataFrame A) : Prop :=
  Forall (fun c => length (snd c) = len df) (df_data df).

Fixpoint assoc {A} (k : string) (l : list (string * A)) : option A :=
  match l with
  | [] => None
  | (k', v) :: l' => if String.eqb k k' then Some v else assoc k l'
  end.

(** [df[c]]: the column, or [KeyError]. *)
Definition getitem {A} (df : DataFrame A) (c : string) : result (list A) :=
  match assoc c (df_data df) with
  | Some col => Ok col
  | None => Raise (KeyError c)
  end.

(** [set(cs).issubset(df.columns)] *)
Definition issubset (cs : list string) (cols : list string) : bool :=
  forallb (fun c => existsb (String.eqb c) cols) cs.

Definition range (n : nat) : list Z := map Z.of_nat (seq 0 n).

Fixpoint pad (n : nat) (s : Series) : Series :=
  match n with
  | O => []
  | S n' =>
      match s with
      | [] => nan :: pad n' []
      | v :: s' => v :: pad n' s'
      end
  end.

(** [pd.DataFrame({name: series, ...})]: the columns in insertion order;
    positions a shorter series lacks hold NaN. *)
Definition pd_DataFrame (d : list (string * Series)) : DataFrame float :=
  let n := fold_right (fun c m => Nat.max (length (snd c)) m) O d in
  mkDataFrame (range n) (map (fun c => (fst c, pad n (snd c))) d).

(** [xs[::step]] for a positive step: the items at positions 0, step,
    2*step, ...; [skip] counts down to the next item kept. *)
Fixpoint stride_from {A} (skip step : nat) (xs : list A) : list A :=
  match xs with
  | [] => []
  | x :: xs' =>
      match skip with
      | O => x :: stride_from (step - 1) step xs'
      | S k => stride_from k step xs'
      end
  end.

Definition slice_step {A} (step : nat) (xs : list A) : list A :=
  stride_from 0 step xs.

(** [df.iloc[::step]] *)
Definition iloc_step {A} (step : nat) (df : DataFrame A) : DataFrame A :=
  mkDataFrame (slice_step step (df_index df))
              (map (fun c => (fst c, slice_step step (snd c))) (df_data df)).

(** ** plotly: traces, figures, layout *)

Record Line := mkLine { line_width : float; line_color : option string }.

Record Marker := mkMarker {
  marker_symbol : string;
  marker_color : string;
  marker_size : Z;
  marker_line : Line
}.

Inductive Trace : Type :=
| Candlestick (x : list Z) (open high low close : list float) (name : string)
    (increasing_line_color decreasing_line_color : string) (showlegend : bool)
| Scatter (x : list Z) (y : list float) (mode name : string) (line : Line)
| Scattergl (x y : list cell) (mode name : string) (marker : Marker)
    (hovertemplate : string).

Definition trace_name (t : Trace) : string :=
  match t with
  | Candlestick _ _ _ _ _ n _ _ _ => n
  | Scatter _ _ _ n _ => n
  | Scattergl _ _ _ n _ _ => n
  end.

Inductive LayoutVal : Type :=
| LNum (z : Z)
| LStr (s : string)
| LBool (b : bool).

(** A figure: its traces, its layout as a map from property path to
    value, and the names of its x and y axes. *)
Record Figure : Type := mkFigure {
  traces : list Trace;
  layout : gmap string LayoutVal;
  xaxes : list string;
  yaxes : list string
}.

(** [go.Figure()] *)
Definition go_Figure : Figure := mkFigure [] ∅ ["xaxis"] ["yaxis"].

Definition add_trace (fig : Figure) (t : Trace) : Figure :=
  mkFigure (traces fig ++ [t]) (layout fig) (xaxes fig) (yaxes fig).

Definition set_props (kvs : list (string * LayoutVal)) (m : gmap string LayoutVal)
  : gmap string LayoutVal :=
  fold_left (fun acc kv => <[fst kv := snd kv]> acc) kvs m.

Definition update_layout (fig : Figure) (kvs : list (string * LayoutVal)) : Figure :=
  mkFigure (traces fig) (set_props kvs (layout fig)) (xaxes fig) (yaxes fig).

Definition axis_props (axes : list string) (kvs : list (string * LayoutVal))
  : list (string * LayoutVal) :=
  flat_map (fun ax => map (fun kv => (ax ++ "." ++ fst kv, snd kv)) kvs) axes.

Definition update_yaxes (fig : Figure) (kvs : list (string * LayoutVal)) : Figure :=
  update_layout fig (axis_props (yaxes fig) kvs).

Definition update_xaxes (fig : Figure) (kvs : list (string * LayoutVal)) : Figure :=
  update_layout fig (axis_props (xaxes fig) kvs).

(** [apply_layout(fig, height=340)] *)
Definition apply_layout (fig : Figure) (height : Z) : Figure :=
  let fig := update_layout fig
    [ ("height", LNum height);
      ("margin.l", LNum 0); ("margin.r", LNum 0);
      ("margin.t", LNum 40); ("margin.b", LNum 0);
      ("template", LStr "plotly_dark");
      ("xaxis.rangeslider.visible", LBool false);
      ("hovermode", LStr "x unified");
      ("uirevision", LStr "keep");
      ("paper_bgcolor", LStr "#0d0b1e");
      ("plot_bgcolor", LStr "#0d0b1e");
      ("font.color", LStr "#EDEBFF");
      ("legend.bgcolor", LStr "rgba(0,0,0,0)") ] in
  let fig := update_yaxes fig
    [ ("showgrid", LBool true); ("gridcolor", LStr "rgba(255,255,255,0.12)") ] in
  update_xaxes fig [ ("showgrid", LBool false) ].

(** ** The portfolio object *)

(** A two-dimensional table of statistics with labelled rows and columns. *)
Record Grid : Type := mkGrid {
  row_labels : list string;
  col_labels : list string;
  cells : list (list cell)
}.

(** What [pf.stats(...)] returns: a one-dimensional Series of named
    statistics, or a two-dimensional frame. *)
Inductive Table : Type :=
| TSeries (entries : list (string * cell))
| TFrame (grid : Grid).

Fixpoint transpose {A} (ncols : nat) (rows : list (list A)) : list (list A) :=
  match ncols with
  | O => []
  | S n => flat_map (firstn 1) rows :: transpose n (map (skipn 1) rows)
  end.

(** [.T]: a Series is its own transpose; a frame swaps its axes. *)
Definition T (t : Table) : Table :=
  match t with
  | TSeries entries => TSeries entries
  | TFrame g =>
      TFrame (mkGrid (col_labels g) (row_labels g)
                     (transpose (length (col_labels g)) (cells g)))
  end.

(** [dict(risk_free_rate=..., freq=...)] *)
Record Settings : Type := mkSettings {
  risk_free_rate : float;
  freq : string
}.

(** The unpickled portfolio, seen through the attributes the script
    reads.  [None] is an attribute the object does not have. *)
Record Portfolio : Type := mkPortfolio {
  pf_trades : option (DataFrame cell);   (* pf.trades.records_readable *)
  pf_value : option Series;
  pf_open : option Series;
  pf_high : option Series;
  pf_low : option Series;
  pf_close : option Series;
  pf_total_return : option float;
  pf_sharpe_ratio : option float;
  pf_max_drawdown : option float;
  pf_plot_cumulative_returns : option Figure;
  pf_plot_drawdowns : option Figure;
  pf_stats : option (Settings -> Table)
}.

Definition attr {A} (name : string) (field : option A) : result A :=
  match field with
  | Some a => Ok a
  | None => Raise (AttributeError name)
  end.

(** The series-valued attributes, by name. *)
Definition series_attr (pf : Portfolio) (name : string) : option Series :=
  if String.eqb name "value" then pf_value pf
  else if String.eqb name "open" then pf_open pf
  else if String.eqb name "high" then pf_high pf
  else if String.eqb name "low" then pf_low pf
  else if String.eqb name "close" then pf_close pf
  else None.

(** [hasattr(pf, name)] *)
Definition hasattr (pf : Portfolio) (name : string) : bool :=
  match series_attr pf name with
  | Some _ => true
  | None => false
  end.

(** [pf.<name>] *)
Definition getattr (pf : Portfolio) (name : string) : result Series :=
  attr name (series_attr pf name).

(** ** Base data *)

(** [returns = value / value.iloc[0] - 1]; [iloc[0]] of an empty series
    raises [IndexError]. *)
Definition returns (value : Series) : result Series :=
  match value with
  | [] => Raise IndexError
  | v0 :: _ => Ok (map (fun v => (v / v0 - 1)%float) value)
  end.

(** The price frame: OHLC if all four are exposed, else Close, else the
    equity value as a synthetic Close. *)
Definition ohlc (pf : Portfolio) : result (DataFrame float) :=
  if forallb (hasattr pf) ["open"; "high"; "low"; "close"] then
    o ← getattr pf "open";
    h ← getattr pf "high";
    l ← getattr pf "low";
    c ← getattr pf "close";
    Ok (pd_DataFrame [("Open", o); ("High", h); ("Low", l); ("Close", c)])
  else if hasattr pf "close" then
    c ← getattr pf "close";
    Ok (pd_DataFrame [("Close", c)])
  else
    v ← getattr pf "value";
    Ok (pd_DataFrame [("Close", v)]).

(** The four display series of the "Base data" block, in the order the
    script derives them. *)
Record BaseData : Type := mkBaseData {
  bd_trades : DataFrame cell;
  bd_value : Series;
  bd_returns : Series;
  bd_ohlc : DataFrame float
}.

Definition base_data (pf : Portfolio) : result BaseData :=
  trades ← attr "trades" (pf_trades pf);
  value ← attr "value" (pf_value pf);
  rets ← returns value;
  price ← ohlc pf;
  Ok (mkBaseData trades value rets price).

(** ** The price chart *)

(** Reading a local variable: unbound names raise [NameError]. *)
Definition var {A} (name : string) (binding : option A) : result A :=
  match binding with
  | Some a => Ok a
  | None => Raise (NameError name)
  end.

(** Candles when the frame has all four OHLC columns, else a line over
    Close. *)
Definition price_trace (ohlc : DataFrame float) : result Trace :=
  if issubset ["Open"; "High"; "Low"; "Close"] (columns ohlc) then
    o ← getitem ohlc "Open";
    h ← getitem ohlc "High";
    l ← getitem ohlc "Low";
    c ← getitem ohlc "Close";
    Ok (Candlestick (df_index ohlc) o h l c "Price" "#7B61FF" "#FF4C4C" true)
  else
    y ← getitem ohlc "Close";
    Ok (Scatter (df_index ohlc) y "lines" "Close" (mkLine 1.6 (Some "#7B61FF"))).

Definition has_entry (trades : DataFrame cell) : bool :=
  issubset ["Entry Index"; "Avg Entry Price"] (columns trades).

Definition has_exit (trades : DataFrame cell) : bool :=
  issubset ["Exit Index"; "Avg Exit Price"] (columns trades).

(** [step = max(1, n // 1200)] *)
Definition step (n : nat) : nat := Nat.max 1 (n / 1200).

(** [tsub = trades.iloc[::step] if step > 1 else trades] *)
Definition tsub (trades : DataFrame cell) : DataFrame cell :=
  let n := len trades in
  if (1 <? step n)%nat then iloc_step (step n) trades else trades.

(** The binding of the local [tsub] after the guarded block: the name is
    assigned only under [has_entry or has_exit]. *)
Definition tsub_binding (trades : DataFrame cell) : option (DataFrame cell) :=
  if has_entry trades || has_exit trades then Some (tsub trades) else None.

Definition marker_trace (binding : option (DataFrame cell))
    (xcol ycol name symbol color hover : string) : result Trace :=
  tx ← var "tsub" binding;
  x ← getitem tx xcol;
  ty ← var "tsub" binding;
  y ← getitem ty ycol;
  Ok (Scattergl x y "markers" name
        (mkMarker symbol color 6 (mkLine 0 None)) hover).

Definition entry_trace (binding : option (DataFrame cell)) : result Trace :=
  marker_trace binding "Entry Index" "Avg Entry Price" "Entry"
    "triangle-up" "rgba(0,255,0,0.6)"
    "Entry<br>%{x}<br>Price: %{y:.2f}<extra></extra>".

Definition exit_trace (binding : option (DataFrame cell)) : result Trace :=
  marker_trace binding "Exit Index" "Avg Exit Price" "Exit"
    "triangle-down" "rgba(255,0,0,0.65)"
    "Exit<br>%{x}<br>Price: %{y:.2f}<extra></extra>".

(** The figure [fig_price] as handed to [st.plotly_chart]: the price
    trace, the marker traces, then the shared layout at height 360. *)
Definition fig_price (ohlc : DataFrame float) (trades : DataFrame cell)
  : result Figure :=
  let fig := go_Figure in
  p ← price_trace ohlc;
  let fig := add_trace fig p in
  let binding := tsub_binding trades in
  fig ← (if has_entry trades
         then t ← entry_trace binding; Ok (add_trace fig t)
         else Ok fig);
  fig ← (if has_exit trades
         then t ← exit_trace binding; Ok (add_trace fig t)
         else Ok fig);
  Ok (apply_layout fig 360).

(** ** Number formatting: [f"{x:.2f}"]

    CPython prints the exactly rounded decimal expansion of the binary
    value with two fractional digits (ties to even), keeps the sign of
    negative zeros and of negatives that round to zero, and prints the
    non-finite values as [nan], [inf] and [-inf]. *)

(** [a / b] rounded to the nearest integer, ties to even ([b > 0]). *)
Definition round_half_even (a b : Z) : Z :=
  let q := a / b in
  match 2 * (a mod b) ?= b with
  | Lt => q
  | Gt => q + 1
  | Eq => if Z.even q then q else q + 1
  end.

(** [m * 2^e] in hundredths, rounded. *)
Definition hundredths (m : positive) (e : Z) : Z :=
  match e with
  | Zneg p => round_half_even (100 * Zpos m) (2 ^ Zpos p)
  | _ => 100 * Zpos m * 2 ^ e
  end.

Definition digit (d : Z) : ascii := ascii_of_nat (48 + Z.to_nat d).

Definition decimal (n : Z) : string :=
  NilZero.string_of_uint (N.to_uint (Z.to_N n)).

Definition fixed2 (neg : bool) (n : Z) : string :=
  (if neg then "-" else "") ++ decimal (n / 100) ++ "."
  ++ String (digit (n mod 100 / 10)) (String (digit (n mod 10)) "").

Definition format_2f (x : float) : string :=
  match Prim2SF x with
  | S754_nan => "nan"
  | S754_infinity s => if s then "-inf" else "inf"
  | S754_zero s => fixed2 s 0
  | S754_finite s m e => fixed2 s (hundredths m e)
  end.

(** ** Streamlit: the rendered page, the resource cache, the script *)

Inductive Element : Type :=
| EMarkdown (body : string) (unsafe_allow_html : bool)
| EPageConfig (page_title layout_mode : string)
| ETitle (body : string)
| ESidebarHeader (body : string)
| ESidebarRadio (label : string) (options : list string)
| ETabs (labels : list string)
| EPlotlyChart (fig : Figure) (use_container_width : bool)
| EDivider
| EColumns (n : Z)
| EMetric (label value : string)
| EDataframe (table : Table) (use_container_width : bool)
| ECaption (body : string).

(** The process state: what [st.cache_resource] has memoised, the paths
    read from storage so far, and the elements rendered in this pass. *)
Record St : Type := mkSt {
  st_cache : gmap string Portfolio;
  st_reads : list string;
  st_page : list Element
}.

Definition Script (A : Type) : Type := St -> St * result A.

#[global] Instance script_ret : MRet Script := fun A a st => (st, Ok a).
#[global] Instance script_bind : MBind Script := fun A B k m st =>
  match m st with
  | (st', Ok a) => k a st'
  | (st', Raise e) => (st', Raise e)
  end.

Definition lift {A} (r : result A) : Script A := fun st => (st, r).

Definition emit (e : Element) : Script unit := fun st =>
  (mkSt (st_cache st) (st_reads st) (st_page st ++ [e]), Ok tt).

(** What unpickling the file at a path yields. *)
Definition Storage : Type := string -> result Portfolio.

(** [vbt.load(path)]: one read of storage. *)
Definition vbt_load (fs : Storage) (path : string) : Script Portfolio := fun st =>
  (mkSt (st_cache st) (st_reads st ++ [path]) (st_page st), fs path).

(** [@st.cache_resource]: a hit returns the stored object and does not
    run the body; a miss runs it and stores what it returns; a raised
    exception stores nothing. *)
Definition cache_resource (body : string -> Script Portfolio) (key : string)
  : Script Portfolio := fun st =>
  match st_cache st !! key with
  | Some pf => (st, Ok pf)
  | None =>
      match body key st with
      | (st', Ok pf) =>
          (mkSt (<[key := pf]> (st_cache st')) (st_reads st') (st_page st'), Ok pf)
      | (st', Raise e) => (st', Raise e)
      end
  end.

Definition lower_ascii (c : ascii) : ascii :=
  let n := nat_of_ascii c in
  if ((65 <=? n) && (n <=? 90))%nat then ascii_of_nat (n + 32) else c.

(** [str.lower()] on the ASCII letters. *)
Fixpoint lower (s : string) : string :=
  match s with
  | EmptyString => EmptyString
  | String c r => String (lower_ascii c) (lower r)
  end.

Definition backtest_path (name : string) : string :=
  "data/" ++ lower name ++ "_backtest.pkl".

Definition load_portfolio (fs : Storage) : string -> Script Portfolio :=
  cache_resource (fun name => vbt_load fs (backtest_path name)).

Definition strategies : list string := ["SAF1"; "SAF2"; "SAF3"].

Definition footer : string :=
  "© 2025 CryptoGraph — powered by Vectorbt Pro & Streamlit".

(** The stylesheet injected first; its text is presentation only. *)
Definition cryptograph_css : string := "<style>/* CryptoGraph styling (purple) */</style>".

Definition tab1 (pf : Portfolio) (price : DataFrame float)
    (trades : DataFrame cell) : Script unit :=
  emit (EMarkdown "### Trade Signals" false);;
  fig ← lift (fig_price price trades);
  emit (EPlotlyChart fig true);;
  emit EDivider;;
  emit (EMarkdown "### Cumulative Returns vs Benchmark" false);;
  fig_returns ← lift (attr "plot_cumulative_returns" (pf_plot_cumulative_returns pf));
  emit (EPlotlyChart (apply_layout fig_returns 340) true);;
  emit EDivider;;
  emit (EMarkdown "### Drawdowns" false);;
  fig_dd ← lift (attr "plot_drawdowns" (pf_plot_drawdowns pf));
  emit (EPlotlyChart (apply_layout fig_dd 340) true).

(** The settings the statistics table is requested with. *)
Definition stats_settings : Settings := mkSettings 0 "1D".

Definition stats (pf : Portfolio) : result Table :=
  f ← attr "stats" (pf_stats pf);
  Ok (f stats_settings).

Definition tab2 (selected : string) (pf : Portfolio) : Script unit :=
  emit (EMarkdown ("### " ++ selected ++ " Performance Metrics") false);;
  emit (EColumns 3);;
  total_return ← lift (attr "total_return" (pf_total_return pf));
  emit (EMetric "Total Return" (format_2f (total_return * 100) ++ "%"));;
  sharpe_ratio ← lift (attr "sharpe_ratio" (pf_sharpe_ratio pf));
  emit (EMetric "Sharpe Ratio" (format_2f sharpe_ratio));;
  max_drawdown ← lift (attr "max_drawdown" (pf_max_drawdown pf));
  emit (EMetric "Max Drawdown" (format_2f (max_drawdown * 100) ++ "%"));;
  emit EDivider;;
  emit (EMarkdown "#### Full Statistics" false);;
  table ← lift (stats pf);
  emit (EDataframe (T table) true).

(** The whole script, top to bottom, for the strategy picked in the
    sidebar.  The page configuration follows the stylesheet, as in the
    source; it is taken as accepted in that position. *)
Definition dashboard (fs : Storage) (selected : string) : Script unit :=
  emit (EMarkdown cryptograph_css true);;
  emit (EPageConfig "CryptoGraph Trading Systems" "wide");;
  emit (ETitle "Trading Systems Dashboard");;
  emit (ESidebarHeader "Select Strategy");;
  emit (ESidebarRadio "" strategies);;
  pf ← load_portfolio fs selected;
  d ← lift (base_data pf);
  emit (ETabs ["Trading Graphs"; "Metrics & Statistics"]);;
  tab1 pf (bd_ohlc d) (bd_trades d);;
  tab2 selected pf;;
  emit (ECaption footer).

(** One render pass: the script runs on a fresh page; the cache and the
    read log carry over from earlier passes. *)
Definition render_pass (fs : Storage) (selected : string) (st : St)
  : St * result unit :=
  dashboard fs selected (mkSt (st_cache st) (st_reads st) []).

(** The charts on a page. *)
Definition charts (page : list Element) : list Figure :=
  flat_map (fun e => match e with EPlotlyChart fig _ => [fig] | _ => [] end) page.

(** ** Sample objects *)

Module Samples.

Definition equity : Series := [100; 110; 99]%float.

Definition trade_log : DataFrame cell :=
  mkDataFrame (range 2)
    [ ("Entry Index", [CInt 0; CInt 1]);
      ("Avg Entry Price", [CFloat 100; CFloat 110]);
      ("Exit Index", [CInt 1; CInt 2]);
      ("Avg Exit Price", [CFloat 110; CFloat 99]) ].

(** A portfolio without price attributes. *)
Definition equity_only : Portfolio :=
  mkPortfolio (Some trade_log) (Some equity) None None None None
    (Some (-0.01)%float) (Some 1.25%float) (Some (-0.1)%float)
    (Some go_Figure) (Some go_Figure)
    (Some (fun _ => TSeries [("Total Return [%]", CFloat (-1))])).

Definition with_close (c : Series) (pf : Portfolio) : Portfolio :=
  mkPortfolio (pf_trades pf) (pf_value pf) (pf_open pf) (pf_high pf)
    (pf_low pf) (Some c) (pf_total_return pf) (pf_sharpe_ratio pf)
    (pf_max_drawdown pf) (pf_plot_cumulative_returns pf)
    (pf_plot_drawdowns pf) (pf_stats pf).

Definition with_ohl (o h l : Series) (pf : Portfolio) : Portfolio :=
  mkPortfolio (pf_trades pf) (pf_value pf) (Some o) (Some h) (Some l)
    (pf_close pf) (pf_total_return pf) (pf_sharpe_ratio pf)
    (pf_max_drawdown pf) (pf_plot_cumulative_returns pf)
    (pf_plot_drawdowns pf) (pf_stats pf).

Definition without_value (pf : Portfolio) : Portfolio :=
  mkPortfolio (pf_trades pf) None (pf_open pf) (pf_high pf) (pf_low pf)
    (pf_close pf) (pf_total_return pf) (pf_sharpe_ratio pf)
    (pf_max_drawdown pf) (pf_plot_cumulative_returns pf)
    (pf_plot_drawdowns pf) (pf_stats pf).

Definition close_only : Portfolio := with_close [101; 111; 98]%float equity_only.

Definition full_ohlc : Portfolio :=
  with_ohl [100; 105; 108]%float [112; 113; 109]%float [99; 104; 97]%float close_only.

(** Storage holding one artifact, for strategy SAF1. *)
Definition disk (pf : Portfolio) : Storage := fun path =>
  if String.eqb path "data/saf1_backtest.pkl" then Ok pf
  else Raise (FileNotFoundError path).

Definition fresh : St := mkSt ∅ [] [].

End Samples.

(** ** Auxiliary definitions for the statements *)

(** The spec's [MissingDataError]: a required attribute is absent from
    the portfolio object.  Python reports it as [AttributeError]. *)
Definition MissingDataError (e : exn) : Prop :=
  exists name, e = AttributeError name.

(** What one call of the loader does to the cache and the read log, and
    what it returns; the page plays no part. *)
Definition load_outcome (fs : Storage) (name : string)
    (c : gmap string Portfolio) (r : list string)
  : gmap string Portfolio * list string * result Portfolio :=
  match c !! name with
  | Some pf => (c, r, Ok pf)
  | None =>
      match fs (backtest_path name) with
      | Ok pf => (<[name := pf]> c, (r ++ [backtest_path name])%list, Ok pf)
      | Raise e => (c, (r ++ [backtest_path name])%list, Raise e)
      end
  end.

(** A marker trace of the given name. *)
Definition is_marker (name : string) (t : Trace) : bool :=
  match t with
  | Scattergl _ _ _ n _ _ => String.eqb n name
  | _ => false
  end.

Definition marker_traces (name : string) (fig : Figure) : list Trace :=
  List.filter (is_marker name) (traces fig).

Module MarkerSamples.

Definition price : DataFrame float := pd_DataFrame [("Close", Samples.equity)].

(** A trade log with the entry column pair only. *)
Definition entries_only : DataFrame cell :=
  mkDataFrame (range 2)
    [ ("Entry Index", [CInt 0; CInt 1]);
      ("Avg Entry Price", [CFloat 100; CFloat 110]);
      ("Exit Index", [CInt 1; CInt 2]) ].

(** A trade log with neither column pair. *)
Definition no_pairs : DataFrame cell :=
  mkDataFrame (range 2)
    [ ("Size", [CFloat 1; CFloat 2]); ("PnL", [CFloat 10; CFloat (-11)]) ].

End MarkerSamples.

Module DownsamplingSamples.

(** A well-formed trade log of [n] rows with both column pairs. *)
Definition trade_log_of (n : nat) : DataFrame cell :=
  mkDataFrame (range n)
    [ ("Entry Index", map CInt (range n));
      ("Avg Entry Price", map (fun _ => CFloat 100) (range n));
      ("Exit Index", map (fun i => CInt (i + 1)) (range n));
      ("Avg Exit Price", map (fun _ => CFloat 101) (range n)) ].

End DownsamplingSamples.

(** Later calls of the loader, each against whatever storage holds at
    that time; results are dropped, the state is threaded. *)
Definition later_loads (calls : list (Storage * string)) (st : St) : St :=
  fold_left (fun acc call => fst (load_portfolio (fst call) (snd call) acc))
            calls st.

(** The chart specifications of one pass, from the extracted series and
    the two figures the portfolio's own plotting routines return: the
    price chart, then the re-themed cumulative-returns and drawdown
    charts; an exception ends the list where it is raised. *)
Definition chart_specs (price : DataFrame float) (trades : DataFrame cell)
    (fig_returns fig_dd : option Figure) : list Figure :=
  match fig_price price trades with
  | Raise _ => []
  | Ok fig =>
      fig ::
      match fig_returns with
      | None => []
      | Some r =>
          apply_layout r 340 ::
          match fig_dd with
          | None => []
          | Some d => [apply_layout d 340]
          end
      end
  end.

Module ChartSamples.

(** The same series as [Samples.equity_only], other headline metrics. *)
Definition other_metrics : Portfolio :=
  mkPortfolio (pf_trades Samples.equity_only) (pf_value Samples.equity_only)
    None None None None
    (Some 0.5%float) (Some nan) (Some (-0.25)%float)
    (Some go_Figure) (Some go_Figure)
    (Some (fun _ => TSeries [])).

(** A process that has already loaded SAF2 and rendered a page. *)
Definition warm : St :=
  mkSt {[ "SAF2" := other_metrics ]} ["data/saf2_backtest.pkl"] [EDivider].


Definition base_of (pf : Portfolio) : BaseData :=
  match base_data pf with
  | Ok d => d
  | Raise _ => mkBaseData (mkDataFrame [] []) [] [] (mkDataFrame [] [])
  end.

End ChartSamples.

(** [math.isfinite] *)
Definition isfinite (x : float) : bool :=
  match Prim2SF x with
  | S754_nan | S754_infinity _ => false
  | _ => true
  end.

Definition is_digit (c : ascii) : bool :=
  let n := nat_of_ascii c in ((48 <=? n) && (n <=? 57))%nat.

Fixpoint all_digits (s : string) : bool :=
  match s with
  | EmptyString => true
  | String c r => is_digit c && all_digits r
  end.

(** Digits up to a point, then exactly two digits; [seen] records that a
    digit came before the point. *)
Fixpoint digits_point_two (seen : bool) (s : string) : bool :=
  match s with
  | EmptyString => false
  | String c r =>
      if is_digit c then digits_point_two true r
      else if Ascii.eqb c "." then
        seen && match r with
                | String a (String b EmptyString) => is_digit a && is_digit b
                | _ => false
                end
      else false
  end.

(** A number printed with exactly two decimal places: an optional minus
    sign, at least one digit, a point, two digits. *)
Definition two_decimals (s : string) : bool :=
  match s with
  | EmptyString => false
  | String c r =>
      if Ascii.eqb c "-" then digits_point_two false r
      else digits_point_two false s
  end.

(** The elements the metrics tab appends to the page. *)
Definition metrics_elements (selected : string) (tr sr dd : float)
    (table : Table) : list Element :=
  [ EMarkdown ("### " ++ selected ++ " Performance Metrics") false;
    EColumns 3;
    EMetric "Total Return" (format_2f (tr * 100) ++ "%");
    EMetric "Sharpe Ratio" (format_2f sr);
    EMetric "Max Drawdown" (format_2f (dd * 100) ++ "%");
    EDivider;
    EMarkdown "#### Full Statistics" false;
    EDataframe (T table) true ].

Module MetricsSamples.

Definition stats_series : Settings -> Table :=
  fun s => TSeries [ ("Period", CStr (freq s));
                     ("Total Return [%]", CFloat 12.5);
                     ("Sharpe Ratio", CFloat 1.25) ].

Definition portfolio : Portfolio :=
  mkPortfolio (Some Samples.trade_log) (Some Samples.equity)
    None None None None
    (Some 0.125%float) (Some 1.25%float) (Some (-0.0625)%float)
    (Some go_Figure) (Some go_Figure) (Some stats_series).

(** A two-dimensional statistics frame: one row per portfolio column. *)
Definition stats_grid : Grid :=
  mkGrid ["BTC"; "ETH"] ["Total Return [%]"]
         [[CFloat 12.5]; [CFloat (-3)]].

End MetricsSamples.

(** ** Definitions for the further properties *)

(** [k] ends with [suffix]. *)
Fixpoint is_suffix (suffix k : string) : bool :=
  String.eqb suffix k ||
  match k with
  | EmptyString => false
  | String _ r => is_suffix suffix r
  end.

(** The property paths the shared theme sets on the layout itself. *)
Definition theme_keys : list string :=
  [ "height"; "margin.l"; "margin.r"; "margin.t"; "margin.b"; "template";
    "xaxis.rangeslider.visible"; "hovermode"; "uirevision"; "paper_bgcolor";
    "plot_bgcolor"; "font.color"; "legend.bgcolor" ].

(** The settings [apply_layout] passes to [update_layout]. *)
Definition theme (height : Z) : list (string * LayoutVal) :=
  [ ("height", LNum height);
    ("margin.l", LNum 0); ("margin.r", LNum 0);
    ("margin.t", LNum 40); ("margin.b", LNum 0);
    ("template", LStr "plotly_dark");
    ("xaxis.rangeslider.visible", LBool false);
    ("hovermode", LStr "x unified");
    ("uirevision", LStr "keep");
    ("paper_bgcolor", LStr "#0d0b1e");
    ("plot_bgcolor", LStr "#0d0b1e");
    ("font.color", LStr "#EDEBFF");
    ("legend.bgcolor", LStr "rgba(0,0,0,0)") ].

Definition yaxis_theme : list (string * LayoutVal) :=
  [ ("showgrid", LBool true); ("gridcolor", LStr "rgba(255,255,255,0.12)") ].

Definition xaxis_theme : list (string * LayoutVal) :=
  [ ("showgrid", LBool false) ].

(** The storage outcome every cached object came from is still what
    storage holds. *)
Definition cache_agrees (fs : Storage) (st : St) : Prop :=
  forall name pf, st_cache st !! name = Some pf -> fs (backtest_path name) = Ok pf.

(** The part of the state that outlives a pass. *)
Definition process_state (st : St) : gmap string Portfolio * list string :=
  (st_cache st, st_reads st).

Module ExtraSamples.

(** A portfolio with series and plots but no total return. *)
Definition no_total_return : Portfolio :=
  mkPortfolio (Some Samples.trade_log) (Some Samples.equity)
    None None None None
    None (Some 1.25%float) (Some (-0.0625)%float)
    (Some go_Figure) (Some go_Figure) (pf_stats Samples.equity_only).

Definition unreadable : Storage := fun path => Raise (UnpicklingError path).

End ExtraSamples.

(** What every pass renders before it loads anything. *)
Definition page_header : list Element :=
  [ EMarkdown cryptograph_css true;
    EPageConfig "CryptoGraph Trading Systems" "wide";
    ETitle "Trading Systems Dashboard";
    ESidebarHeader "Select Strategy";
    ESidebarRadio "" strategies ].

(** The elements of the charts tab. *)
Definition charts_elements (fig fig_returns fig_dd : Figure) : list Element :=
  [ EMarkdown "### Trade Signals" false;
    EPlotlyChart fig true;
    EDivider;
    EMarkdown "### Cumulative Returns vs Benchmark" false;
    EPlotlyChart (apply_layout fig_returns 340) true;
    EDivider;
    EMarkdown "### Drawdowns" false;
    EPlotlyChart (apply_layout fig_dd 340) true ].

Module DelegatedSamples.

(** The series of [Samples.equity_only], another drawdown plot. *)
Definition replotted : Portfolio :=
  mkPortfolio (pf_trades Samples.equity_only) (pf_value Samples.equity_only)
    None None None None
    (pf_total_return Samples.equity_only) (pf_sharpe_ratio Samples.equity_only)
    (pf_max_drawdown Samples.equity_only)
    (Some go_Figure)
    (Some (add_trace go_Figure
             (Scatter (range 3) [0; 0; -0.1]%float "lines" "Drawdown"
                      (mkLine 1 None))))
    (pf_stats Samples.equity_only).

(** A process that has already loaded it as SAF2 and rendered a page. *)
Definition warm : St :=
  mkSt {[ "SAF2" := replotted ]} ["data/saf2_backtest.pkl"] [EDivider].

(** A process that has already loaded [Samples.equity_only] as SAF1. *)
Definition cached_saf1 : St :=
  mkSt {[ "SAF1" := Samples.equity_only ]} ["data/saf1_backtest.pkl"] [].

End DelegatedSamples.

(** * Properties *)

(** ** Price-frame selection *)

Lemma hasattr_all_four (pf : Portfolio) :
  forallb (hasattr pf) ["open"; "high"; "low"; "close"] =
  match pf_open pf, pf_high pf, pf_low pf, pf_close pf with
  | Some _, Some _, Some _, Some _ => true
  | _, _, _, _ => false
  end.
Proof.
  unfold hasattr, series_attr; simpl.
  destruct (pf_open pf), (pf_high pf), (pf_low pf), (pf_close pf); reflexivity.
Qed.

(** The selection, read off the portfolio's fields. *)
Lemma ohlc_by_fields (pf : Portfolio) :
  ohlc pf =
  match pf_open pf, pf_high pf, pf_low pf, pf_close pf with
  | Some o, Some h, Some l, Some c =>
      Ok (pd_DataFrame [("Open", o); ("High", h); ("Low", l); ("Close", c)])
  | _, _, _, Some c => Ok (pd_DataFrame [("Close", c)])
  | _, _, _, None =>
      match pf_value pf with
      | Some v => Ok (pd_DataFrame [("Close", v)])
      | None => Raise (AttributeError "value")
      end
  end.
Proof.
  unfold ohlc. rewrite hasattr_all_four.
  unfold hasattr, getattr, series_attr; simpl.
  destruct (pf_open pf), (pf_high pf), (pf_low pf), (pf_close pf),
    (pf_value pf); reflexivity.
Qed.

(** C1. The price frame is chosen in strict priority order: all four of
    open/high/low/close exposed gives the four-column OHLC frame (never the
    Close-only one); otherwise an exposed close gives the one-column Close
    frame; otherwise the equity value series becomes the Close column (and
    only if that is absent too does the selection raise). *)
Theorem ohlc_priority_order (pf : Portfolio) :
  ohlc pf =
  match pf_open pf, pf_high pf, pf_low pf, pf_close pf with
  | Some o, Some h, Some l, Some c =>
      Ok (pd_DataFrame [("Open", o); ("High", h); ("Low", l); ("Close", c)])
  | _, _, _, Some c => Ok (pd_DataFrame [("Close", c)])
  | _, _, _, None =>
      match pf_value pf with
      | Some v => Ok (pd_DataFrame [("Close", v)])
      | None => Raise (AttributeError "value")
      end
  end.
Proof.
  unfold ohlc. rewrite hasattr_all_four.
  unfold hasattr, getattr, series_attr; simpl.
  destruct (pf_open pf) as [o|], (pf_high pf) as [h|], (pf_low pf) as [l|],
    (pf_close pf) as [c|], (pf_value pf) as [v|]; reflexivity.
Qed.

Example ohlc_full :
  columns <$> ohlc Samples.full_ohlc = Ok ["Open"; "High"; "Low"; "Close"].
Proof. reflexivity. Qed.

Example ohlc_close_only :
  ohlc Samples.close_only = Ok (pd_DataFrame [("Close", [101; 111; 98]%float)]).
Proof. reflexivity. Qed.

(** The spec's scenario: equity [100, 110, 99] and no price attributes. *)
Example ohlc_equity_only :
  (ohlc Samples.equity_only ≫= fun frame => getitem frame "Close")
  = Ok [100; 110; 99]%float.
Proof. reflexivity. Qed.

Lemma getitem_In {A} (df : DataFrame A) (c : string) :
  In c (columns df) -> exists col, getitem df c = Ok col.
Proof.
  unfold getitem, columns. induction (df_data df) as [|[k v] l IH]; simpl.
  - intros [].
  - intros [<-|H].
    + rewrite String.eqb_refl. eauto.
    + destruct (String.eqb c k); eauto.
Qed.

Lemma getitem_Ok_In {A} (df : DataFrame A) (c : string) (col : list A) :
  getitem df c = Ok col -> In c (columns df).
Proof.
  unfold getitem, columns. induction (df_data df) as [|[k v] l IH]; simpl.
  - discriminate.
  - destruct (String.eqb_spec c k) as [->|_]; [now left | right; auto].
Qed.

Lemma existsb_eqb_In (c : string) (cols : list string) :
  existsb (String.eqb c) cols = true <-> In c cols.
Proof.
  rewrite existsb_exists. split.
  - intros (x & Hx & E). apply String.eqb_eq in E. now subst.
  - intros H. exists c. split; [assumption | apply String.eqb_refl].
Qed.

Lemma issubset_spec (cs cols : list string) :
  issubset cs cols = true <-> (forall c, In c cs -> In c cols).
Proof.
  unfold issubset. rewrite forallb_forall.
  split; intros H c Hc; apply existsb_eqb_In; auto.
Qed.

Lemma columns_pd_DataFrame (d : list (string * Series)) :
  columns (pd_DataFrame d) = map fst d.
Proof. unfold columns, pd_DataFrame; simpl. rewrite map_map. reflexivity. Qed.

(** C8. Whichever branch builds the price frame, the frame has a Close
    column that can be read; the selection raises only when the portfolio
    exposes neither close nor the equity value. *)
Theorem price_frame_has_close (pf : Portfolio) :
  match ohlc pf with
  | Ok frame =>
      In "Close" (columns frame) /\ exists col, getitem frame "Close" = Ok col
  | Raise e =>
      e = AttributeError "value" /\ pf_close pf = None /\ pf_value pf = None
  end.
Proof.
  rewrite ohlc_by_fields.
  assert (Hc : forall d, In "Close" (map fst d) ->
    In "Close" (columns (pd_DataFrame d)) /\
    exists col, getitem (pd_DataFrame d) "Close" = Ok col).
  { intros d Hd. rewrite <- columns_pd_DataFrame in Hd.
    split; [assumption | now apply getitem_In]. }
  destruct (pf_open pf), (pf_high pf), (pf_low pf), (pf_close pf);
    try (apply Hc; simpl; tauto);
    destruct (pf_value pf); try (apply Hc; simpl; tauto); auto.
Qed.

(** ** A missing equity value *)

Lemma base_data_missing_value (pf : Portfolio) :
  pf_value pf = None ->
  base_data pf =
  Raise (AttributeError (if pf_trades pf is Some _ then "value" else "trades")).
Proof.
  intros H. unfold base_data. rewrite H. destruct (pf_trades pf); reflexivity.
Qed.

Lemma load_portfolio_outcome fs name c r p :
  load_portfolio fs name (mkSt c r p) =
  let '(c', r', res) := load_outcome fs name c r in (mkSt c' r' p, res).
Proof.
  unfold load_portfolio, cache_resource, load_outcome, vbt_load; simpl.
  destruct (c !! name); [reflexivity|].
  destruct (fs (backtest_path name)); reflexivity.
Qed.

Lemma load_portfolio_result fs name st :
  snd (load_portfolio fs name st) =
  snd (load_outcome fs name (st_cache st) (st_reads st)).
Proof.
  destruct st as [c r p]. rewrite load_portfolio_outcome; simpl.
  destruct (load_outcome fs name c r) as [[c' r'] res]. reflexivity.
Qed.

Lemma script_bind_run {A B} (m : Script A) (k : A -> Script B) (st : St) :
  (m ≫= k) st =
  match m st with
  | (st', Ok a) => k a st'
  | (st', Raise e) => (st', Raise e)
  end.
Proof. reflexivity. Qed.

(** The script up to the end of the "Base data" block. *)
Lemma dashboard_run fs selected c r :
  dashboard fs selected (mkSt c r []) =
  let '(c', r', res) := load_outcome fs selected c r in
  let page :=
    [ EMarkdown cryptograph_css true;
      EPageConfig "CryptoGraph Trading Systems" "wide";
      ETitle "Trading Systems Dashboard";
      ESidebarHeader "Select Strategy";
      ESidebarRadio "" strategies ] in
  match res with
  | Raise e => (mkSt c' r' page, Raise e)
  | Ok pf =>
      match base_data pf with
      | Raise e => (mkSt c' r' page, Raise e)
      | Ok d =>
          (emit (ETabs ["Trading Graphs"; "Metrics & Statistics"]);;
           tab1 pf (bd_ohlc d) (bd_trades d);;
           tab2 selected pf;;
           emit (ECaption footer))
            (mkSt c' r' page)
      end
  end.
Proof.
  unfold dashboard.
  repeat (rewrite script_bind_run; unfold emit at 1; simpl).
  rewrite load_portfolio_outcome.
  destruct (load_outcome fs selected c r) as [[c' r'] [pf|e]]; [|reflexivity].
  rewrite script_bind_run. unfold lift at 1.
  destruct (base_data pf); reflexivity.
Qed.

(** C4. A loaded portfolio without the equity value attribute makes the
    extraction raise the missing-attribute error, the render pass ends
    with that error, and the page of that pass holds no chart. *)
Theorem missing_value_aborts (fs : Storage) (selected : string) (st : St)
    (pf : Portfolio) :
  snd (load_portfolio fs selected st) = Ok pf ->
  pf_value pf = None ->
  exists e,
    MissingDataError e /\
    base_data pf = Raise e /\
    snd (render_pass fs selected st) = Raise e /\
    charts (st_page (fst (render_pass fs selected st))) = [].
Proof.
  intros Hload Hv.
  exists (AttributeError (if pf_trades pf is Some _ then "value" else "trades")).
  split; [eexists; reflexivity|].
  split; [now apply base_data_missing_value|].
  rewrite load_portfolio_result in Hload.
  unfold render_pass. rewrite dashboard_run.
  destruct (load_outcome fs selected (st_cache st) (st_reads st))
    as [[c' r'] res]; simpl in Hload; subst res.
  rewrite (base_data_missing_value pf Hv). split; reflexivity.
Qed.

Lemma missing_value_aborts_witness :
  exists e,
    MissingDataError e /\
    base_data (Samples.without_value Samples.close_only) = Raise e /\
    snd (render_pass (Samples.disk (Samples.without_value Samples.close_only))
           "SAF1" Samples.fresh) = Raise e /\
    charts (st_page (fst (render_pass
      (Samples.disk (Samples.without_value Samples.close_only))
      "SAF1" Samples.fresh))) = [].
Proof.
  apply (missing_value_aborts
           (Samples.disk (Samples.without_value Samples.close_only))
           "SAF1" Samples.fresh (Samples.without_value Samples.close_only));
    reflexivity.
Defined.

(** ** Marker traces *)

Lemma traces_apply_layout (fig : Figure) (h : Z) :
  traces (apply_layout fig h) = traces fig.
Proof. reflexivity. Qed.

Lemma columns_iloc_step {A} (k : nat) (df : DataFrame A) :
  columns (iloc_step k df) = columns df.
Proof. unfold columns, iloc_step; simpl. rewrite map_map. reflexivity. Qed.

Lemma columns_tsub (trades : DataFrame cell) :
  columns (tsub trades) = columns trades.
Proof.
  unfold tsub. destruct (1 <? step (len trades))%nat;
    [apply columns_iloc_step | reflexivity].
Qed.

Lemma price_trace_total (price : DataFrame float) :
  In "Close" (columns price) ->
  exists p, price_trace price = Ok p /\ forall name, is_marker name p = false.
Proof.
  intros Hc. unfold price_trace.
  destruct (issubset _ (columns price)) eqn:E.
  - rewrite issubset_spec in E.
    destruct (getitem_In price "Open") as [o Ho]; [apply E; simpl; tauto|].
    destruct (getitem_In price "High") as [h Hh]; [apply E; simpl; tauto|].
    destruct (getitem_In price "Low") as [l Hl]; [apply E; simpl; tauto|].
    destruct (getitem_In price "Close") as [c Hcl]; [assumption|].
    rewrite Ho, Hh, Hl, Hcl. simpl. eauto.
  - destruct (getitem_In price "Close") as [c Hcl]; [assumption|].
    rewrite Hcl. simpl. eauto.
Qed.

Lemma marker_trace_bound (df : DataFrame cell)
    (xcol ycol name symbol color hover : string) :
  issubset [xcol; ycol] (columns df) = true ->
  exists x y,
    getitem df xcol = Ok x /\ getitem df ycol = Ok y /\
    marker_trace (Some df) xcol ycol name symbol color hover =
    Ok (Scattergl x y "markers" name
          (mkMarker symbol color 6 (mkLine 0 None)) hover).
Proof.
  intros E. rewrite issubset_spec in E.
  destruct (getitem_In df xcol) as [x Hx]; [apply E; simpl; tauto|].
  destruct (getitem_In df ycol) as [y Hy]; [apply E; simpl; tauto|].
  exists x, y. unfold marker_trace. simpl. rewrite Hx. simpl. rewrite Hy.
  auto.
Qed.

(** The traces of the price chart: the price trace, then the entry
    markers if the entry column pair is there, then the exit markers if
    the exit column pair is there. *)
Lemma fig_price_traces (price : DataFrame float) (trades : DataFrame cell) :
  In "Close" (columns price) ->
  exists fig p,
    fig_price price trades = Ok fig /\
    price_trace price = Ok p /\
    (forall name, is_marker name p = false) /\
    exists es xs,
      traces fig = ([p] ++ es ++ xs)%list /\
      (if has_entry trades
       then exists e, es = [e] /\ entry_trace (Some (tsub trades)) = Ok e /\
              is_marker "Entry" e = true /\ is_marker "Exit" e = false
       else es = []) /\
      (if has_exit trades
       then exists x, xs = [x] /\ exit_trace (Some (tsub trades)) = Ok x /\
              is_marker "Exit" x = true /\ is_marker "Entry" x = false
       else xs = []).
Proof.
  intros Hc. destruct (price_trace_total price Hc) as (p & Hp & Hm).
  unfold fig_price, tsub_binding. rewrite Hp. simpl.
  destruct (has_entry trades) eqn:He; destruct (has_exit trades) eqn:Hx; simpl.
  - unfold has_entry in He. unfold has_exit in Hx.
    rewrite <- columns_tsub in He, Hx.
    destruct (marker_trace_bound _ _ _ "Entry" "triangle-up" "rgba(0,255,0,0.6)"
      "Entry<br>%{x}<br>Price: %{y:.2f}<extra></extra>" He) as (a & b & _ & _ & E1).
    destruct (marker_trace_bound _ _ _ "Exit" "triangle-down" "rgba(255,0,0,0.65)"
      "Exit<br>%{x}<br>Price: %{y:.2f}<extra></extra>" Hx) as (a' & b' & _ & _ & E2).
    unfold entry_trace, exit_trace. rewrite E1. simpl. rewrite E2. simpl.
    do 2 eexists. repeat split; [exact Hm|].
    do 2 eexists. split; [reflexivity|]. split; eexists; repeat split.
  - unfold has_entry in He. rewrite <- columns_tsub in He.
    destruct (marker_trace_bound _ _ _ "Entry" "triangle-up" "rgba(0,255,0,0.6)"
      "Entry<br>%{x}<br>Price: %{y:.2f}<extra></extra>" He) as (a & b & _ & _ & E1).
    unfold entry_trace. rewrite E1. simpl.
    do 2 eexists. repeat split; [exact Hm|].
    exists [Scattergl a b "markers" "Entry"
              (mkMarker "triangle-up" "rgba(0,255,0,0.6)" 6 (mkLine 0 None))
              "Entry<br>%{x}<br>Price: %{y:.2f}<extra></extra>"], [].
    split; [reflexivity|]. split; [eexists; repeat split | reflexivity].
  - unfold has_exit in Hx. rewrite <- columns_tsub in Hx.
    destruct (marker_trace_bound _ _ _ "Exit" "triangle-down" "rgba(255,0,0,0.65)"
      "Exit<br>%{x}<br>Price: %{y:.2f}<extra></extra>" Hx) as (a' & b' & _ & _ & E2).
    unfold exit_trace. rewrite E2. simpl.
    do 2 eexists. repeat split; [exact Hm|].
    exists [], [Scattergl a' b' "markers" "Exit"
              (mkMarker "triangle-down" "rgba(255,0,0,0.65)" 6 (mkLine 0 None))
              "Exit<br>%{x}<br>Price: %{y:.2f}<extra></extra>"].
    split; [reflexivity|]. split; [reflexivity | eexists; repeat split].
  - do 2 eexists. repeat split; [exact Hm|].
    exists [], []. repeat split.
Qed.

Lemma has_entry_spec (trades : DataFrame cell) :
  has_entry trades = true <->
  In "Entry Index" (columns trades) /\ In "Avg Entry Price" (columns trades).
Proof.
  unfold has_entry. rewrite issubset_spec. split.
  - intros H. split; apply H; simpl; tauto.
  - intros [H1 H2] c [<-|[<-|[]]]; assumption.
Qed.

Lemma has_exit_spec (trades : DataFrame cell) :
  has_exit trades = true <->
  In "Exit Index" (columns trades) /\ In "Avg Exit Price" (columns trades).
Proof.
  unfold has_exit. rewrite issubset_spec. split.
  - intros H. split; apply H; simpl; tauto.
  - intros [H1 H2] c [<-|[<-|[]]]; assumption.
Qed.

(** C5. Entry and exit markers are independently optional: the composed
    price chart has exactly one entry-marker trace when the trade log has
    both 'Entry Index' and 'Avg Entry Price' and none otherwise, and exactly
    one exit-marker trace when it has both 'Exit Index' and 'Avg Exit Price'
    and none otherwise. *)
Theorem markers_independently_optional (price : DataFrame float)
    (trades : DataFrame cell) :
  In "Close" (columns price) ->
  exists fig,
    fig_price price trades = Ok fig /\
    (length (marker_traces "Entry" fig) = 1%nat <->
     In "Entry Index" (columns trades) /\ In "Avg Entry Price" (columns trades)) /\
    (length (marker_traces "Entry" fig) = 0%nat <->
     ~ (In "Entry Index" (columns trades) /\ In "Avg Entry Price" (columns trades))) /\
    (length (marker_traces "Exit" fig) = 1%nat <->
     In "Exit Index" (columns trades) /\ In "Avg Exit Price" (columns trades)) /\
    (length (marker_traces "Exit" fig) = 0%nat <->
     ~ (In "Exit Index" (columns trades) /\ In "Avg Exit Price" (columns trades))).
Proof.
  intros Hc.
  destruct (fig_price_traces price trades Hc)
    as (fig & p & Hfig & _ & Hm & es & xs & Htr & Hes & Hxs).
  exists fig. split; [assumption|].
  rewrite <- has_entry_spec, <- has_exit_spec.
  unfold marker_traces. rewrite Htr, !List.filter_app. simpl.
  rewrite !Hm. simpl.
  destruct (has_entry trades); destruct (has_exit trades).
  - destruct Hes as (e & -> & _ & E1 & E2), Hxs as (x & -> & _ & X1 & X2).
    simpl. rewrite E1, E2, X1, X2. simpl. intuition congruence.
  - destruct Hes as (e & -> & _ & E1 & E2). subst xs.
    simpl. rewrite E1, E2. simpl. intuition congruence.
  - destruct Hxs as (x & -> & _ & X1 & X2). subst es.
    simpl. rewrite X1, X2. simpl. intuition congruence.
  - subst es xs. simpl. intuition congruence.
Qed.

Lemma markers_independently_optional_witness :
  exists fig,
    fig_price MarkerSamples.price MarkerSamples.entries_only = Ok fig /\
    (length (marker_traces "Entry" fig) = 1%nat <->
     In "Entry Index" (columns MarkerSamples.entries_only) /\
     In "Avg Entry Price" (columns MarkerSamples.entries_only)) /\
    (length (marker_traces "Entry" fig) = 0%nat <->
     ~ (In "Entry Index" (columns MarkerSamples.entries_only) /\
        In "Avg Entry Price" (columns MarkerSamples.entries_only))) /\
    (length (marker_traces "Exit" fig) = 1%nat <->
     In "Exit Index" (columns MarkerSamples.entries_only) /\
     In "Avg Exit Price" (columns MarkerSamples.entries_only)) /\
    (length (marker_traces "Exit" fig) = 0%nat <->
     ~ (In "Exit Index" (columns MarkerSamples.entries_only) /\
        In "Avg Exit Price" (columns MarkerSamples.entries_only))).
Proof.
  apply (markers_independently_optional MarkerSamples.price
           MarkerSamples.entries_only).
  simpl. tauto.
Defined.

(** The entry-only log yields one entry trace and no exit trace. *)
Example entries_only_counts :
  (fun fig => (length (traces fig), length (marker_traces "Entry" fig),
               length (marker_traces "Exit" fig)))
    <$> fig_price MarkerSamples.price MarkerSamples.entries_only
  = Ok (2%nat, 1%nat, 0%nat).
Proof. reflexivity. Qed.

(** ** No marker columns at all *)

(** C10. With neither the entry pair nor the exit pair among the trade
    log's columns, the local [tsub] stays unbound and is never read: the
    composition returns a figure (it does not raise [NameError], which a
    read of the unbound name would), no marker trace is added, and the
    chart's only trace is the price trace. *)
Theorem no_marker_columns_total (price : DataFrame float)
    (trades : DataFrame cell) :
  In "Close" (columns price) ->
  ~ (In "Entry Index" (columns trades) /\ In "Avg Entry Price" (columns trades)) ->
  ~ (In "Exit Index" (columns trades) /\ In "Avg Exit Price" (columns trades)) ->
  tsub_binding trades = None /\
  entry_trace (tsub_binding trades) = Raise (NameError "tsub") /\
  exit_trace (tsub_binding trades) = Raise (NameError "tsub") /\
  exists p,
    price_trace price = Ok p /\
    fig_price price trades = Ok (apply_layout (add_trace go_Figure p) 360) /\
    traces (apply_layout (add_trace go_Figure p) 360) = [p] /\
    forall name, marker_traces name (apply_layout (add_trace go_Figure p) 360) = [].
Proof.
  intros Hc He Hx.
  rewrite <- has_entry_spec in He. rewrite <- has_exit_spec in Hx.
  apply not_true_is_false in He, Hx.
  assert (Hb : tsub_binding trades = None).
  { unfold tsub_binding. rewrite He, Hx. reflexivity. }
  rewrite Hb. repeat split.
  destruct (price_trace_total price Hc) as (p & Hp & Hm).
  exists p. split; [assumption|]. split.
  - unfold fig_price. rewrite Hp, He, Hx. reflexivity.
  - split; [reflexivity|]. intros name. unfold marker_traces. simpl.
    rewrite Hm. reflexivity.
Qed.

Lemma no_marker_columns_total_witness :
  tsub_binding MarkerSamples.no_pairs = None /\
  entry_trace (tsub_binding MarkerSamples.no_pairs) = Raise (NameError "tsub") /\
  exit_trace (tsub_binding MarkerSamples.no_pairs) = Raise (NameError "tsub") /\
  exists p,
    price_trace MarkerSamples.price = Ok p /\
    fig_price MarkerSamples.price MarkerSamples.no_pairs
      = Ok (apply_layout (add_trace go_Figure p) 360) /\
    traces (apply_layout (add_trace go_Figure p) 360) = [p] /\
    forall name, marker_traces name (apply_layout (add_trace go_Figure p) 360) = [].
Proof.
  apply (no_marker_columns_total MarkerSamples.price MarkerSamples.no_pairs);
    simpl; intuition discriminate.
Defined.

(** The composition never reads an unbound name, whatever the columns:
    the only exception it can raise is a [KeyError] from a price frame
    without the columns it indexes. *)
Lemma fig_price_raises_only_KeyError (price : DataFrame float)
    (trades : DataFrame cell) (e : exn) :
  fig_price price trades = Raise e -> exists k, e = KeyError k.
Proof.
  intros H.
  destruct (price_trace price) as [p|e'] eqn:Hp.
  - assert (Hc : In "Close" (columns price)).
    { unfold price_trace in Hp.
      destruct (issubset _ (columns price)) eqn:E.
      - rewrite issubset_spec in E. apply E. simpl; tauto.
      - destruct (getitem price "Close") eqn:G; [|discriminate].
        eapply getitem_Ok_In; eassumption. }
    destruct (fig_price_traces price trades Hc) as (fig & _ & Hfig & _).
    congruence.
  - unfold fig_price in H. rewrite Hp in H. simpl in H.
    injection H as <-. unfold price_trace in Hp.
    destruct (issubset _ (columns price)).
    + unfold getitem in Hp.
      repeat (match type of Hp with
              | context [assoc ?c ?d] => destruct (assoc c d); simpl in Hp
              end; try (injection Hp as <-; eauto)).
      discriminate.
    + unfold getitem in Hp. destruct (assoc _ _); simpl in Hp;
        [discriminate | injection Hp as <-; eauto].
Qed.

(** ** Marker downsampling *)

Section Stride.
Context {A : Type}.
Implicit Types (xs : list A) (k s i : nat).

Lemma length_stride_from xs : forall k s,
  (k < s)%nat ->
  length (stride_from k s xs) = ((length xs + (s - 1 - k)) / s)%nat.
Proof.
  induction xs as [|x xs IH]; intros k s Hk; cbn [stride_from length].
  - symmetry. apply Nat.div_small. lia.
  - destruct k as [|k].
    + cbn [length]. rewrite IH by lia.
      replace (length xs + (s - 1 - (s - 1)))%nat with (length xs) by lia.
      replace (S (length xs) + (s - 1 - 0))%nat
        with (length xs + 1 * s)%nat by lia.
      rewrite (Nat.div_add (length xs) 1 s) by lia. lia.
    + rewrite IH by lia. f_equal. lia.
Qed.

Lemma lookup_stride_from xs : forall k s i,
  (k < s)%nat ->
  stride_from k s xs !! i = xs !! (k + i * s)%nat.
Proof.
  induction xs as [|x xs IH]; intros k s i Hk; cbn [stride_from].
  - now rewrite !lookup_nil.
  - destruct k as [|k].
    + destruct i as [|i]; [reflexivity|].
      replace (0 + S i * s)%nat with (S (s - 1 + i * s)) by lia.
      cbn [lookup list_lookup]. now apply IH; lia.
    + replace (S k + i * s)%nat with (S (k + i * s)) by lia.
      cbn [lookup list_lookup]. apply IH; lia.
Qed.

Lemma length_slice_step xs s :
  (0 < s)%nat -> length (slice_step s xs) = ((length xs + s - 1) / s)%nat.
Proof.
  intros Hs. unfold slice_step. rewrite length_stride_from by assumption.
  f_equal. lia.
Qed.

Lemma lookup_slice_step xs s i :
  (0 < s)%nat -> slice_step s xs !! i = xs !! (i * s)%nat.
Proof. intros Hs. unfold slice_step. now rewrite lookup_stride_from. Qed.

Lemma assoc_map_snd {B} (f : list A -> B) (c : string)
    (d : list (string * list A)) :
  assoc c (map (fun e => (fst e, f (snd e))) d) = f <$> assoc c d.
Proof.
  induction d as [|[k v] d IH]; simpl; [reflexivity|].
  destruct (String.eqb c k); [reflexivity | assumption].
Qed.

Lemma assoc_Some_In (c : string) (d : list (string * list A)) (col : list A) :
  assoc c d = Some col -> In (c, col) d.
Proof.
  induction d as [|[k v] d IH]; simpl; [discriminate|].
  destruct (String.eqb_spec c k) as [->|_].
  - intros [= ->]. now left.
  - intros H. right. auto.
Qed.

End Stride.

Lemma step_eq (n : nat) : step n = Nat.max 1 (n / 1200).
Proof. reflexivity. Qed.

Lemma step_pos (n : nat) : (0 < step n)%nat.
Proof. unfold step. lia. Qed.

Lemma step_one (n : nat) : (n < 2400)%nat <-> step n = 1%nat.
Proof.
  unfold step. split; intros H.
  - assert (n / 1200 < 2)%nat by (apply Nat.Div0.div_lt_upper_bound; lia). lia.
  - destruct (Nat.lt_ge_cases n 2400) as [|Hge]; [assumption|].
    assert (2 <= n / 1200)%nat by (apply Nat.div_le_lower_bound; lia). lia.
Qed.

Lemma tsub_unsampled (trades : DataFrame cell) :
  step (len trades) = 1%nat -> tsub trades = trades.
Proof. intros H. unfold tsub. rewrite H. reflexivity. Qed.

Lemma tsub_sampled (trades : DataFrame cell) :
  (1 < step (len trades))%nat ->
  tsub trades = iloc_step (step (len trades)) trades.
Proof.
  intros H. unfold tsub. apply Nat.ltb_lt in H. rewrite H. reflexivity.
Qed.

(** Rows of [tsub]: the index and every column keep the items at
    positions 0, step, 2*step, ... *)
Lemma tsub_rows (trades : DataFrame cell) :
  let s := step (len trades) in
  (forall i, df_index (tsub trades) !! i = df_index trades !! (i * s)%nat) /\
  len (tsub trades) = ((len trades + s - 1) / s)%nat /\
  (forall c col, getitem trades c = Ok col ->
     exists col', getitem (tsub trades) c = Ok col' /\
       (forall i, col' !! i = col !! (i * s)%nat) /\
       length col' = ((length col + s - 1) / s)%nat).
Proof.
  intros s. subst s.
  destruct (Nat.eq_dec (step (len trades)) 1%nat) as [E|E].
  - rewrite (tsub_unsampled trades E), E. repeat split.
    + intros i. f_equal. lia.
    + rewrite Nat.div_1_r. lia.
    + intros c col H. exists col. repeat split; [assumption| |].
      * intros i. f_equal. lia.
      * rewrite Nat.div_1_r. lia.
  - pose proof (step_pos (len trades)) as Hp.
    rewrite tsub_sampled by lia. unfold len, iloc_step; simpl. repeat split.
    + intros i. now apply lookup_slice_step.
    + now apply length_slice_step.
    + intros c col H. unfold getitem in *; simpl.
      rewrite assoc_map_snd.
      destruct (assoc c (df_data trades)) as [col0|]; [|discriminate].
      injection H as ->. simpl. eexists. split; [reflexivity|]. split.
      * intros i. now apply lookup_slice_step.
      * now apply length_slice_step.
Qed.

Lemma ceil_div_lt (n s : nat) :
  (1 < s)%nat -> (1 < n)%nat -> ((n + s - 1) / s < n)%nat.
Proof.
  intros Hs Hn. apply Nat.Div0.div_lt_upper_bound. nia.
Qed.

Lemma well_formed_trade_log_of (n : nat) :
  well_formed (DownsamplingSamples.trade_log_of n).
Proof.
  unfold well_formed, DownsamplingSamples.trade_log_of, len, range; simpl.
  repeat constructor; simpl; now rewrite !length_map.
Qed.

(** C3 (amended). For a trade log of [n] rows the stride is
    [max 1 (n / 1200)]; the subsampled table keeps the rows at positions
    0, stride, 2*stride, ... in their order, so it and each of its
    columns have ceil(n / stride) rows; below 2400 rows (in particular
    up to 1200) the stride is 1 and the table is the trade log itself;
    from 2400 rows on the stride exceeds 1 and strictly fewer rows are
    kept. *)
Theorem marker_downsampling (trades : DataFrame cell) :
  well_formed trades ->
  let n := len trades in
  let s := step n in
  let m := ((n + s - 1) / s)%nat in
  s = Nat.max 1 (n / 1200) /\
  (n <= s * m /\ s * m < n + s)%nat /\
  len (tsub trades) = m /\
  (forall i, df_index (tsub trades) !! i = df_index trades !! (i * s)%nat) /\
  (forall c col, getitem trades c = Ok col ->
     exists col', getitem (tsub trades) c = Ok col' /\
       length col' = m /\
       forall i, col' !! i = col !! (i * s)%nat) /\
  ((n < 2400)%nat -> s = 1%nat /\ tsub trades = trades) /\
  ((2400 <= n)%nat -> (1 < s)%nat /\ (len (tsub trades) < n)%nat).
Proof.
  intros Hwf n s m.
  pose proof (step_pos n) as Hs. fold s in Hs.
  destruct (tsub_rows trades) as (Hidx & Hlen & Hcols).
  fold n in Hidx, Hlen, Hcols. fold s in Hidx, Hlen, Hcols.
  split; [reflexivity|]. split.
  { subst m. pose proof (Nat.div_mod_eq (n + s - 1) s) as E.
    pose proof (Nat.mod_upper_bound (n + s - 1) s ltac:(lia)). lia. }
  split; [exact Hlen|]. split; [exact Hidx|]. split.
  { intros c col Hc. destruct (Hcols c col Hc) as (col' & H1 & H2 & H3).
    exists col'. split; [assumption|]. split; [|assumption].
    rewrite H3. subst m. do 3 f_equal.
    unfold getitem in Hc. destruct (assoc c (df_data trades)) eqn:E;
      [|discriminate]. injection Hc as ->.
    apply assoc_Some_In in E. unfold well_formed in Hwf.
    rewrite List.Forall_forall in Hwf. apply (Hwf _ E). }
  split.
  - intros Hn. apply step_one in Hn. fold s in Hn.
    split; [assumption | now apply tsub_unsampled].
  - intros Hn. assert (Hs1 : (1 < s)%nat).
    { destruct (Nat.eq_dec s 1%nat) as [E|E]; [|lia].
      apply step_one in E. lia. }
    split; [assumption|]. rewrite Hlen. apply ceil_div_lt; lia.
Qed.

Lemma marker_downsampling_witness :
  let trades := DownsamplingSamples.trade_log_of 3000 in
  let n := len trades in
  let s := step n in
  let m := ((n + s - 1) / s)%nat in
  s = Nat.max 1 (n / 1200) /\
  (n <= s * m /\ s * m < n + s)%nat /\
  len (tsub trades) = m /\
  (forall i, df_index (tsub trades) !! i = df_index trades !! (i * s)%nat) /\
  (forall c col, getitem trades c = Ok col ->
     exists col', getitem (tsub trades) c = Ok col' /\
       length col' = m /\
       forall i, col' !! i = col !! (i * s)%nat) /\
  ((n < 2400)%nat -> s = 1%nat /\ tsub trades = trades) /\
  ((2400 <= n)%nat -> (1 < s)%nat /\ (len (tsub trades) < n)%nat).
Proof.
  apply (marker_downsampling (DownsamplingSamples.trade_log_of 3000)).
  unfold well_formed. repeat constructor; vm_compute; reflexivity.
Defined.

(** The spec's scenario: 3000 trades give stride 2 and 1500 markers. *)
Example downsampling_3000 :
  step 3000 = 2%nat /\
  (length <$> getitem (tsub (DownsamplingSamples.trade_log_of 3000)) "Entry Index")
    = Ok 1500%nat /\
  (length <$> getitem (tsub (DownsamplingSamples.trade_log_of 3000)) "Exit Index")
    = Ok 1500%nat.
Proof. vm_compute. auto. Qed.

(** C3 as stated fails between 1201 and 2399 trades: the count exceeds
    1200, yet the stride is 1 and every row is kept. *)
Lemma no_subsampling_at_1201 :
  (1200 < len (DownsamplingSamples.trade_log_of 1201))%nat /\
  step (len (DownsamplingSamples.trade_log_of 1201)) = 1%nat /\
  tsub (DownsamplingSamples.trade_log_of 1201)
    = DownsamplingSamples.trade_log_of 1201 /\
  ~ (len (tsub (DownsamplingSamples.trade_log_of 1201))
     < len (DownsamplingSamples.trade_log_of 1201))%nat.
Proof.
  assert (E : len (DownsamplingSamples.trade_log_of 1201) = 1201%nat)
    by (vm_compute; reflexivity).
  assert (S1 : step 1201 = 1%nat) by (vm_compute; reflexivity).
  rewrite (tsub_unsampled _ ltac:(rewrite E; exact S1)), E.
  split; [lia|]. split; [exact S1|]. split; [reflexivity | lia].
Qed.

(** ** The memoised loader *)

Lemma load_portfolio_hit fs name st pf :
  st_cache st !! name = Some pf ->
  load_portfolio fs name st = (st, Ok pf).
Proof.
  intros H. unfold load_portfolio, cache_resource. rewrite H. reflexivity.
Qed.

Lemma load_portfolio_stores fs name st st1 pf :
  load_portfolio fs name st = (st1, Ok pf) ->
  st_cache st1 !! name = Some pf.
Proof.
  unfold load_portfolio, cache_resource, vbt_load.
  destruct (st_cache st !! name) as [pf0|] eqn:E.
  - intros [= <- <-]. assumption.
  - simpl. destruct (fs (backtest_path name)); [|discriminate].
    intros [= <- <-]. simpl. apply lookup_insert_eq.
Qed.

(** The cache only grows: an entry, once stored, is never replaced. *)
Lemma load_portfolio_keeps fs name st key pf :
  st_cache st !! key = Some pf ->
  st_cache (fst (load_portfolio fs name st)) !! key = Some pf.
Proof.
  intros H. unfold load_portfolio, cache_resource, vbt_load.
  destruct (st_cache st !! name) as [pf0|] eqn:E; [assumption|].
  simpl. destruct (fs (backtest_path name)); simpl; [|assumption].
  rewrite lookup_insert_ne; [assumption|]. intros ->. congruence.
Qed.

Lemma later_loads_keep calls : forall st key pf,
  st_cache st !! key = Some pf ->
  st_cache (later_loads calls st) !! key = Some pf.
Proof.
  induction calls as [|[fs name] calls IH]; intros st key pf H; simpl.
  - assumption.
  - apply IH. now apply load_portfolio_keeps.
Qed.

(** C6. Once [load_portfolio] has returned an object for an identifier,
    every later call with that identifier (after any other loads, and
    whatever storage holds by then) returns that same object and leaves
    the state, hence the log of storage reads, unchanged; the derived
    series of the two results coincide. *)
Theorem load_portfolio_memoized (fs fs' : Storage) (name : string)
    (st st1 : St) (pf : Portfolio) (calls : list (Storage * string)) :
  load_portfolio fs name st = (st1, Ok pf) ->
  let st2 := later_loads calls st1 in
  load_portfolio fs' name st2 = (st2, Ok pf) /\
  st_reads (fst (load_portfolio fs' name st2)) = st_reads st2 /\
  (snd (load_portfolio fs' name st2) ≫= base_data) = base_data pf.
Proof.
  intros H st2.
  assert (Hhit : load_portfolio fs' name st2 = (st2, Ok pf)).
  { apply load_portfolio_hit. apply later_loads_keep.
    eapply load_portfolio_stores; eassumption. }
  rewrite Hhit. auto.
Qed.

Lemma load_portfolio_memoized_witness :
  let st1 := fst (load_portfolio (Samples.disk Samples.equity_only) "SAF1" Samples.fresh) in
  let st2 := later_loads [(Samples.disk Samples.close_only, "SAF2")] st1 in
  load_portfolio (Samples.disk Samples.full_ohlc) "SAF1" st2
    = (st2, Ok Samples.equity_only) /\
  st_reads (fst (load_portfolio (Samples.disk Samples.full_ohlc) "SAF1" st2))
    = st_reads st2 /\
  (snd (load_portfolio (Samples.disk Samples.full_ohlc) "SAF1" st2) ≫= base_data)
    = base_data Samples.equity_only.
Proof.
  apply (load_portfolio_memoized (Samples.disk Samples.equity_only)
           (Samples.disk Samples.full_ohlc) "SAF1" Samples.fresh
           (fst (load_portfolio (Samples.disk Samples.equity_only) "SAF1" Samples.fresh))
           Samples.equity_only
           [(Samples.disk Samples.close_only, "SAF2")]).
  reflexivity.
Defined.

(** The first load reads storage once; the repeated one reads nothing. *)
Example reads_after_two_loads :
  st_reads (later_loads [(Samples.disk Samples.equity_only, "SAF1");
                         (Samples.disk Samples.equity_only, "SAF1")]
                        Samples.fresh)
  = ["data/saf1_backtest.pkl"].
Proof. reflexivity. Qed.

(** A failed load stores nothing, so the next call reads storage again. *)
Example failed_load_retries :
  st_reads (later_loads [(Samples.disk Samples.equity_only, "SAF2");
                         (Samples.disk Samples.equity_only, "SAF2")]
                        Samples.fresh)
  = ["data/saf2_backtest.pkl"; "data/saf2_backtest.pkl"].
Proof. reflexivity. Qed.

(** ** Determinism of chart composition *)

Lemma charts_app (p q : list Element) :
  charts (p ++ q) = (charts p ++ charts q)%list.
Proof. unfold charts. apply flat_map_app. Qed.

Lemma bind_emit {B} (e : Element) (k : unit -> Script B) (st : St) :
  (emit e ≫= k) st = k tt (mkSt (st_cache st) (st_reads st) (st_page st ++ [e])).
Proof. reflexivity. Qed.

Lemma bind_lift_Ok {A B} (a : A) (k : A -> Script B) (st : St) :
  (lift (Ok a) ≫= k) st = k a st.
Proof. reflexivity. Qed.

Lemma bind_lift_Raise {A B} (e : exn) (k : A -> Script B) (st : St) :
  (lift (Raise e : result A) ≫= k) st = (st, Raise e).
Proof. reflexivity. Qed.

Lemma stats_eq (pf : Portfolio) :
  stats pf =
  match pf_stats pf with
  | Some f => Ok (f stats_settings)
  | None => Raise (AttributeError "stats")
  end.
Proof. unfold stats. destruct (pf_stats pf); reflexivity. Qed.

Ltac run_script :=
  repeat first
    [ rewrite bind_emit
    | rewrite bind_lift_Ok
    | rewrite bind_lift_Raise
    | progress cbn [attr fst snd st_page st_cache st_reads] ].

Lemma tab2_charts (selected : string) (pf : Portfolio) (st : St) :
  charts (st_page (fst (tab2 selected pf st))) = charts (st_page st).
Proof.
  unfold tab2. rewrite stats_eq.
  destruct (pf_total_return pf), (pf_sharpe_ratio pf), (pf_max_drawdown pf),
    (pf_stats pf); run_script; unfold emit;
    cbn [fst snd st_page]; rewrite ?charts_app; simpl; rewrite ?app_nil_r;
    reflexivity.
Qed.

Lemma bind_charts {A B} (m : Script A) (k : A -> Script B) (st : St) :
  (forall a st', charts (st_page (fst (k a st'))) = charts (st_page st')) ->
  charts (st_page (fst ((m ≫= k) st))) = charts (st_page (fst (m st))).
Proof.
  intros H. rewrite script_bind_run. destruct (m st) as [st' [a|e]]; simpl; auto.
Qed.

Lemma tab1_charts (pf : Portfolio) (price : DataFrame float)
    (trades : DataFrame cell) (st : St) :
  charts (st_page (fst (tab1 pf price trades st))) =
  (charts (st_page st) ++
   chart_specs price trades (pf_plot_cumulative_returns pf)
               (pf_plot_drawdowns pf))%list.
Proof.
  unfold tab1, chart_specs.
  destruct (fig_price price trades), (pf_plot_cumulative_returns pf),
    (pf_plot_drawdowns pf); run_script; unfold emit;
    cbn [fst snd st_page]; rewrite ?charts_app; simpl;
    rewrite ?app_nil_r, <- ?app_assoc; reflexivity.
Qed.

(** The charts a pass renders are the chart specifications of the loaded
    portfolio's series; nothing else of the state reaches them. *)
Lemma render_pass_charts fs selected st pf d :
  snd (load_portfolio fs selected st) = Ok pf ->
  base_data pf = Ok d ->
  charts (st_page (fst (render_pass fs selected st))) =
  chart_specs (bd_ohlc d) (bd_trades d) (pf_plot_cumulative_returns pf)
              (pf_plot_drawdowns pf).
Proof.
  intros Hload Hd. rewrite load_portfolio_result in Hload.
  unfold render_pass. rewrite dashboard_run.
  destruct (load_outcome fs selected (st_cache st) (st_reads st))
    as [[c' r'] res]; simpl in Hload; subst res. rewrite Hd.
  rewrite bind_emit. rewrite bind_charts.
  - rewrite tab1_charts. reflexivity.
  - intros [] st'. rewrite bind_charts; [apply tab2_charts|].
    intros [] st''. unfold emit; simpl. rewrite charts_app; simpl.
    apply app_nil_r.
Qed.

Lemma ohlc_Ok_Close (pf : Portfolio) (price : DataFrame float) :
  ohlc pf = Ok price -> In "Close" (columns price).
Proof.
  rewrite ohlc_by_fields.
  destruct (pf_open pf), (pf_high pf), (pf_low pf), (pf_close pf);
    try destruct (pf_value pf); try discriminate;
    intros [= <-]; rewrite columns_pd_DataFrame; simpl; tauto.
Qed.

Lemma base_data_ohlc (pf : Portfolio) (d : BaseData) :
  base_data pf = Ok d -> ohlc pf = Ok (bd_ohlc d).
Proof.
  unfold base_data.
  destruct (pf_trades pf); [|discriminate]. simpl.
  destruct (pf_value pf) as [v|]; [|discriminate]. simpl.
  destruct (returns v); [|discriminate]. simpl.
  destruct (ohlc pf); [|discriminate]. simpl. now intros [= <-].
Qed.

Lemma fig_price_total_aux (pf : Portfolio) (price : DataFrame float)
    (trades : DataFrame cell) :
  ohlc pf = Ok price -> exists fig, fig_price price trades = Ok fig.
Proof.
  intros H. pose proof (ohlc_Ok_Close pf price H) as Hc.
  destruct (fig_price_traces price trades Hc) as (fig & _ & Hfig & _). eauto.
Qed.




(** The pass over the sample portfolio renders three charts, the first
    with the price line and both marker traces. *)
Example sample_pass_charts :
  map (fun fig => map trace_name (traces fig))
      (charts (st_page (fst (render_pass (Samples.disk Samples.equity_only)
                               "SAF1" Samples.fresh))))
  = [["Close"; "Entry"; "Exit"]; []; []].
Proof. reflexivity. Qed.

(** ** The return series *)

Lemma div_eucl_shift (m : positive) :
  Z.div_eucl (Z.shiftl (Z.pos m) 53) (Z.pos m) = (2 ^ 53, 0).
Proof.
  rewrite Z.shiftl_mul_pow2 by lia.
  pose proof (Z.div_mul (2 ^ 53) (Z.pos m) ltac:(lia)) as Hq.
  pose proof (Z.mod_mul (2 ^ 53) (Z.pos m) ltac:(lia)) as Hr.
  rewrite (Z.mul_comm (2 ^ 53)) in Hq, Hr.
  unfold Z.div, Z.modulo in Hq, Hr.
  destruct (Z.div_eucl (Z.pos m * 2 ^ 53) (Z.pos m)) as [q r].
  now subst.
Qed.

Lemma new_location_exact (n : Z) : new_location n 0 = loc_Exact.
Proof. unfold new_location. destruct (Z.even n); reflexivity. Qed.

(** A finite nonzero binary64 number divided by itself is exactly one:
    the quotient of the mantissas is [2^53] with no remainder, which
    rounds to the mantissa of 1. *)
Lemma SF64div_self (s : bool) (m : positive) (e : Z) :
  SF64div (S754_finite s m e) (S754_finite s m e)
  = S754_finite false 4503599627370496 (-52).
Proof.
  unfold SF64div, SFdiv, SFdiv_core_binary.
  replace (Zdigits2 (Z.pos m) + e - (Zdigits2 (Z.pos m) + e)) with 0 by lia.
  replace (e - e) with 0 by lia.
  change (Z.min (fexp prec emax 0) 0) with (-53).
  change (0 - -53) with 53.
  cbv beta iota zeta.
  replace (IntDef.Z.div_eucl _ _) with (2 ^ 53, 0)
    by (symmetry; apply div_eucl_shift).
  rewrite new_location_exact, xorb_nilpotent.
  vm_compute. reflexivity.
Qed.

Lemma finite_nonzero (x : float) :
  isfinite x = true -> (x =? 0)%float = false ->
  exists s m e, Prim2SF x = S754_finite s m e.
Proof.
  unfold isfinite. rewrite FloatAxioms.eqb_spec.
  destruct (Prim2SF x) as [s| | |s m e]; try discriminate; eauto.
Qed.

Lemma div_self (x : float) :
  isfinite x = true -> (x =? 0)%float = false -> (x / x)%float = 1%float.
Proof.
  intros H1 H2. destruct (finite_nonzero x H1 H2) as (s & m & e & E).
  rewrite <- (SF2Prim_Prim2SF (x / x)%float), div_spec, E, SF64div_self.
  reflexivity.
Qed.

(** C2 (amended). For an equity series whose first element [v0] is
    finite and nonzero, the return series has the length of the value
    series, its element at every position [i] is the float
    [value[i] / v0 - 1] (and compares [==] to it unless that number is
    NaN), and its first element is 0. *)
Theorem returns_normalised (value : Series) (v0 : float) :
  value !! 0%nat = Some v0 ->
  isfinite v0 = true ->
  (v0 =? 0)%float = false ->
  exists rets,
    returns value = Ok rets /\
    length rets = length value /\
    (forall i v, value !! i = Some v ->
       rets !! i = Some (v / v0 - 1)%float /\
       (is_nan (v / v0 - 1) = false ->
        exists r, rets !! i = Some r /\ (r =? v / v0 - 1)%float = true)) /\
    exists r0, rets !! 0%nat = Some r0 /\ (r0 =? 0)%float = true.
Proof.
  unfold Series in *. intros Hv Hf Hz.
  destruct value as [|v value]; [discriminate|].
  injection Hv as ->. unfold returns.
  eexists. split; [reflexivity|]. split; [apply length_map|]. split.
  - intros i v Hi.
    assert (E : map (fun v1 => (v1 / v0 - 1)%float) (v0 :: value) !! i
                = Some (v / v0 - 1)%float).
    { change (map ?f ?l) with (f <$> l). rewrite list_lookup_fmap, Hi.
      reflexivity. }
    split; [exact E|]. intros Hn. eexists. split; [exact E|].
    unfold is_nan in Hn. now apply negb_false_iff in Hn.
  - exists 0%float. split; [|reflexivity].
    simpl. rewrite (div_self v0 Hf Hz). reflexivity.
Qed.

Lemma returns_normalised_witness :
  exists rets,
    returns Samples.equity = Ok rets /\
    length rets = length Samples.equity /\
    (forall i v, Samples.equity !! i = Some v ->
       rets !! i = Some (v / 100 - 1)%float /\
       (is_nan (v / 100 - 1) = false ->
        exists r, rets !! i = Some r /\ (r =? v / 100 - 1)%float = true)) /\
    exists r0, rets !! 0%nat = Some r0 /\ (r0 =? 0)%float = true.
Proof.
  apply (returns_normalised Samples.equity 100%float); reflexivity.
Defined.

(** The spec's scenario, in binary64: equity [100, 110, 99]. *)
Example returns_equity :
  returns Samples.equity
  = Ok [0; 0.10000000000000009; -0.010000000000000009]%float.
Proof. reflexivity. Qed.

(** C2 as stated fails for a first element that is nonzero but not
    finite: infinity divided by itself is NaN, which is not [== 0]. *)
Lemma returns_infinite_start :
  [infinity; 1]%float !! 0%nat = Some infinity /\
  (infinity =? 0)%float = false /\
  returns [infinity; 1]%float = Ok [nan; (-1)%float] /\
  (nan =? 0)%float = false /\
  (nan =? infinity / infinity - 1)%float = false.
Proof. repeat split. Qed.

(** ** The metrics panel *)

Lemma round_half_even_nearest (a b : Z) :
  0 < b -> 2 * Z.abs (b * round_half_even a b - a) <= b.
Proof.
  intros Hb. unfold round_half_even.
  pose proof (Z.div_mod a b ltac:(lia)) as E.
  pose proof (Z.mod_pos_bound a b Hb) as Hr.
  destruct (Z.compare_spec (2 * (a mod b)) b) as [H|H|H];
    [destruct (Z.even (a / b))| |]; nia.
Qed.

Lemma round_half_even_nonneg (a b : Z) :
  0 <= a -> 0 < b -> 0 <= round_half_even a b.
Proof.
  intros Ha Hb. unfold round_half_even.
  pose proof (Z.div_pos a b Ha Hb).
  destruct (2 * (a mod b) ?= b)%Z; [destruct (Z.even (a / b))| |]; lia.
Qed.

Lemma hundredths_nonneg (m : positive) (e : Z) : 0 <= hundredths m e.
Proof.
  unfold hundredths. destruct e as [|p|p].
  - lia.
  - pose proof (Z.pow_pos_nonneg 2 (Z.pos p)). lia.
  - apply round_half_even_nonneg; [lia|]. apply Z.pow_pos_nonneg; lia.
Qed.

(** The printed hundredths are the nearest to the binary value
    [m * 2^e] times 100. *)
Lemma hundredths_nearest (m : positive) (e : Z) :
  match e with
  | Zneg p =>
      2 * Z.abs (2 ^ Z.pos p * hundredths m e - 100 * Z.pos m) <= 2 ^ Z.pos p
  | _ => hundredths m e = 100 * Z.pos m * 2 ^ e
  end.
Proof.
  destruct e as [|p|p]; try reflexivity.
  apply round_half_even_nearest. apply Z.pow_pos_nonneg; lia.
Qed.

Lemma is_digit_digit (d : Z) : 0 <= d <= 9 -> is_digit (digit d) = true.
Proof.
  intros H.
  assert (C : d = 0 \/ d = 1 \/ d = 2 \/ d = 3 \/ d = 4 \/ d = 5 \/ d = 6
              \/ d = 7 \/ d = 8 \/ d = 9) by lia.
  repeat (destruct C as [->|C]; [reflexivity|]). subst. reflexivity.
Qed.

Lemma all_digits_uint (d : Decimal.uint) :
  all_digits (NilEmpty.string_of_uint d) = true.
Proof. induction d; simpl; auto. Qed.

Lemma decimal_digits (n : Z) :
  all_digits (decimal n) = true /\ decimal n <> "".
Proof.
  unfold decimal, NilZero.string_of_uint.
  destruct (N.to_uint (Z.to_N n)) eqn:E; simpl;
    (split; [try reflexivity; apply all_digits_uint | discriminate]).
Qed.

Lemma digits_point_two_app (ds : string) (a b : ascii) : forall seen,
  all_digits ds = true ->
  seen = true \/ ds <> "" ->
  is_digit a = true -> is_digit b = true ->
  digits_point_two seen (ds ++ String "." (String a (String b ""))) = true.
Proof.
  induction ds as [|c r IH]; intros seen Hd Hs Ha Hb; simpl.
  - destruct Hs as [->|Hs]; [|congruence]. now rewrite Ha, Hb.
  - simpl in Hd. apply andb_true_iff in Hd as [Hc Hr].
    rewrite Hc. apply IH; auto.
Qed.

Lemma two_decimals_fixed2 (neg : bool) (n : Z) :
  0 <= n -> two_decimals (fixed2 neg n) = true.
Proof.
  intros Hn. unfold fixed2.
  destruct (decimal_digits (n / 100)) as [Hd Hne].
  assert (Ha : is_digit (digit (n mod 100 / 10)) = true).
  { apply is_digit_digit.
    pose proof (Z.mod_pos_bound n 100 ltac:(lia)).
    split; [apply Z.div_pos; lia | apply Z.lt_succ_r, Z.div_lt_upper_bound; lia]. }
  assert (Hb : is_digit (digit (n mod 10)) = true).
  { apply is_digit_digit. pose proof (Z.mod_pos_bound n 10 ltac:(lia)). lia. }
  pose proof (digits_point_two_app (decimal (n / 100)) _ _ false Hd
                (or_intror Hne) Ha Hb) as H.
  destruct neg; simpl.
  - exact H.
  - unfold two_decimals.
    destruct (decimal (n / 100)) as [|c r] eqn:E; [congruence|].
    simpl in *. apply andb_true_iff in Hd as [Hc _].
    destruct (Ascii.eqb_spec c "-") as [->|_]; [discriminate Hc | exact H].
Qed.

Lemma two_decimals_format_2f (x : float) :
  isfinite x = true -> two_decimals (format_2f x) = true.
Proof.
  unfold isfinite, format_2f.
  destruct (Prim2SF x) as [s|s| |s m e]; try discriminate; intros _.
  - now apply two_decimals_fixed2.
  - apply two_decimals_fixed2, hundredths_nonneg.
Qed.

(** C7 (amended). The metrics panel prints total return and max drawdown
    (each times 100, with a percent sign) and the Sharpe ratio through
    [.2f]: exactly two decimal places whenever the printed number is
    finite.  It requests the statistics table with risk-free rate 0.0
    and frequency "1D" and displays its transpose [stats.T], which is
    the table itself when it is a one-dimensional Series. *)
Theorem metrics_panel (selected : string) (pf : Portfolio) (st : St)
    (tr sr dd : float) (f : Settings -> Table) :
  pf_total_return pf = Some tr ->
  pf_sharpe_ratio pf = Some sr ->
  pf_max_drawdown pf = Some dd ->
  pf_stats pf = Some f ->
  tab2 selected pf st =
    (mkSt (st_cache st) (st_reads st)
          (st_page st ++ metrics_elements selected tr sr dd
                           (f (mkSettings 0 "1D"))), Ok tt) /\
  stats pf = Ok (f (mkSettings 0 "1D")) /\
  (isfinite (tr * 100) = true -> two_decimals (format_2f (tr * 100)) = true) /\
  (isfinite sr = true -> two_decimals (format_2f sr) = true) /\
  (isfinite (dd * 100) = true -> two_decimals (format_2f (dd * 100)) = true) /\
  (forall entries, f (mkSettings 0 "1D") = TSeries entries ->
     T (f (mkSettings 0 "1D")) = f (mkSettings 0 "1D")).
Proof.
  intros Htr Hsr Hdd Hf. split; [|split].
  - unfold tab2. rewrite stats_eq, Htr, Hsr, Hdd, Hf. run_script.
    unfold emit, metrics_elements, stats_settings; cbn [st_cache st_reads st_page].
    rewrite <- !app_assoc. reflexivity.
  - rewrite stats_eq, Hf. reflexivity.
  - repeat split; try apply two_decimals_format_2f.
    intros entries ->. reflexivity.
Qed.

Lemma metrics_panel_witness :
  tab2 "SAF1" MetricsSamples.portfolio Samples.fresh =
    (mkSt (st_cache Samples.fresh) (st_reads Samples.fresh)
          (st_page Samples.fresh ++
           metrics_elements "SAF1" 0.125 1.25 (-0.0625)
             (MetricsSamples.stats_series (mkSettings 0 "1D"))), Ok tt) /\
  stats MetricsSamples.portfolio
    = Ok (MetricsSamples.stats_series (mkSettings 0 "1D")) /\
  (isfinite (0.125 * 100) = true ->
   two_decimals (format_2f (0.125 * 100)) = true) /\
  (isfinite 1.25 = true -> two_decimals (format_2f 1.25) = true) /\
  (isfinite (-0.0625 * 100) = true ->
   two_decimals (format_2f (-0.0625 * 100)) = true) /\
  (forall entries,
     MetricsSamples.stats_series (mkSettings 0 "1D") = TSeries entries ->
     T (MetricsSamples.stats_series (mkSettings 0 "1D"))
     = MetricsSamples.stats_series (mkSettings 0 "1D")).
Proof.
  apply (metrics_panel "SAF1" MetricsSamples.portfolio Samples.fresh
           0.125 1.25 (-0.0625) MetricsSamples.stats_series); reflexivity.
Defined.

(** What the sample panel shows; 0.125 and -0.0625 give ties. *)
Example metrics_sample_strings :
  (format_2f (0.125 * 100) ++ "%", format_2f 1.25, format_2f (-0.0625 * 100) ++ "%",
   format_2f 0.125, format_2f 0.375, format_2f (-0.001))
  = ("12.50%", "1.25", "-6.25%", "0.12", "0.38", "-0.00").
Proof. reflexivity. Qed.

(** C7 as stated fails for a Sharpe ratio that is not a number (a
    backtest with constant equity has one): the panel prints "nan",
    which has no decimal places; an overflowing percentage prints "inf". *)
Lemma metrics_nan_sharpe :
  pf_sharpe_ratio ChartSamples.other_metrics = Some nan /\
  In (EMetric "Sharpe Ratio" "nan")
     (st_page (fst (tab2 "SAF2" ChartSamples.other_metrics Samples.fresh))) /\
  format_2f nan = "nan" /\
  two_decimals (format_2f nan) = false /\
  format_2f (1e307 * 100) = "inf".
Proof.
  split; [reflexivity|]. split; [|repeat split].
  vm_compute. tauto.
Qed.

(** The transpose of a two-dimensional statistics frame is a different
    table. *)
Example transpose_frame :
  T (TFrame MetricsSamples.stats_grid)
  = TFrame (mkGrid ["Total Return [%]"] ["BTC"; "ETH"]
                   [[CFloat 12.5; CFloat (-3)]]).
Proof. reflexivity. Qed.

(** * Further properties *)

(** ** The shared layout *)

Lemma set_props_snoc kvs k v (m : gmap string LayoutVal) :
  set_props (kvs ++ [(k, v)]) m = <[k := v]> (set_props kvs m).
Proof. unfold set_props. rewrite fold_left_app. reflexivity. Qed.

Lemma set_props_app a b (m : gmap string LayoutVal) :
  set_props (a ++ b) m = set_props b (set_props a m).
Proof. unfold set_props. apply fold_left_app. Qed.

(** Later settings of a property win over earlier ones and over the
    figure's own. *)
Lemma lookup_set_props kvs (m : gmap string LayoutVal) (k : string) :
  set_props kvs m !! k =
  match assoc k (rev kvs) with
  | Some v => Some v
  | None => m !! k
  end.
Proof.
  induction kvs as [|[k' v'] kvs IH] using rev_ind; [reflexivity|].
  rewrite set_props_snoc, rev_app_distr. simpl.
  destruct (String.eqb_spec k k') as [->|Hne].
  - apply lookup_insert_eq.
  - rewrite lookup_insert_ne by congruence. exact IH.
Qed.

Lemma assoc_app {A} (k : string) (a b : list (string * A)) :
  assoc k (a ++ b) =
  match assoc k a with
  | Some v => Some v
  | None => assoc k b
  end.
Proof.
  induction a as [|[k' v'] a IH]; simpl; [reflexivity|].
  destruct (String.eqb k k'); [reflexivity | exact IH].
Qed.

Lemma assoc_None_iff {A} (k : string) (l : list (string * A)) :
  assoc k l = None <-> ~ In k (map fst l).
Proof.
  induction l as [|[k' v'] l IH]; simpl; [tauto|].
  destruct (String.eqb_spec k k') as [->|Hne].
  - split; [discriminate | tauto].
  - rewrite IH. split; [intros H [E|E]; [congruence | tauto] | tauto].
Qed.

Lemma assoc_constant {A} (k : string) (l : list (string * A)) (v : A) :
  In k (map fst l) ->
  (forall k' v', In (k', v') l -> k' = k -> v' = v) ->
  assoc k l = Some v.
Proof.
  induction l as [|[k' v'] l IH]; simpl; [tauto|]. intros Hin Hv.
  destruct (String.eqb_spec k k') as [->|Hne].
  - f_equal. apply (Hv k' v'); auto.
  - apply IH; [destruct Hin; [congruence | assumption]|].
    intros k2 v2 H2. apply Hv. now right.
Qed.

Lemma is_suffix_app (a suffix : string) : is_suffix suffix (a ++ suffix) = true.
Proof.
  induction a as [|c a IH]; simpl.
  - destruct suffix; simpl; [reflexivity|].
    now rewrite Ascii.eqb_refl, String.eqb_refl.
  - rewrite IH. apply orb_true_r.
Qed.

Lemma eqb_length_ne (s k : string) :
  String.length s <> String.length k -> String.eqb s k = false.
Proof.
  intros H. destruct (String.eqb_spec s k) as [->|]; [congruence | reflexivity].
Qed.

Lemma length_append (a b : string) :
  String.length (a ++ b) = (String.length a + String.length b)%nat.
Proof. induction a; simpl; auto. Qed.

(** A suffix no longer than [t] ends [a ++ t] exactly when it ends [t]. *)
Lemma is_suffix_prepend (a s t : string) :
  (String.length s <= String.length t)%nat ->
  is_suffix s (a ++ t) = is_suffix s t.
Proof.
  intros H. induction a as [|c a IH]; [reflexivity|].
  simpl. rewrite IH, eqb_length_ne; [reflexivity|].
  simpl. rewrite length_append. lia.
Qed.

Lemma append_inv_tail (a b t : string) : a ++ t = b ++ t -> a = b.
Proof.
  revert b. induction a as [|c a IH]; intros [|d b] H.
  - reflexivity.
  - apply (f_equal String.length) in H.
    rewrite !length_append in H. simpl in H. lia.
  - apply (f_equal String.length) in H.
    rewrite !length_append in H. simpl in H. lia.
  - simpl in H. injection H as -> H. f_equal. now apply IH.
Qed.

Lemma axis_props_keys axes kvs k :
  In k (map fst (axis_props axes kvs)) <->
  exists ax p, In ax axes /\ In p (map fst kvs) /\ k = ax ++ "." ++ p.
Proof.
  unfold axis_props. rewrite in_map_iff. split.
  - intros ([k' v] & <- & H). apply in_flat_map in H as (ax & Hax & H).
    apply in_map_iff in H as ([p w] & [= <- <-] & Hp).
    exists ax, p. split; [assumption|]. split; [|reflexivity].
    apply in_map_iff. now exists (p, w).
  - intros (ax & p & Hax & Hp & ->). apply in_map_iff in Hp as ([p' w] & <- & Hp).
    exists (ax ++ "." ++ p', w). split; [reflexivity|].
    apply in_flat_map. exists ax. split; [assumption|].
    apply in_map_iff. now exists (p', w).
Qed.

Lemma axis_props_In axes kvs k (v : LayoutVal) :
  In (k, v) (axis_props axes kvs) <->
  exists ax p, In ax axes /\ In (p, v) kvs /\ k = ax ++ "." ++ p.
Proof.
  unfold axis_props. rewrite in_flat_map. split.
  - intros (ax & Hax & H). apply in_map_iff in H as ([p w] & [= <- <-] & Hp).
    now exists ax, p.
  - intros (ax & p & Hax & Hp & ->). exists ax. split; [assumption|].
    apply in_map_iff. now exists (p, v).
Qed.

Lemma layout_apply_layout (fig : Figure) (h : Z) :
  layout (apply_layout fig h) =
  set_props (axis_props (xaxes fig) xaxis_theme)
    (set_props (axis_props (yaxes fig) yaxis_theme)
       (set_props (theme h) (layout fig))).
Proof. reflexivity. Qed.

Lemma assoc_rev_None {A} (k : string) (l : list (string * A)) :
  ~ In k (map fst l) -> assoc k (rev l) = None.
Proof.
  intros H. apply assoc_None_iff. rewrite map_rev, <- in_rev. exact H.
Qed.

Lemma xaxis_keys_suffix axes k :
  In k (map fst (axis_props axes xaxis_theme)) ->
  exists ax, In ax axes /\ k = ax ++ ".showgrid".
Proof.
  intros H. apply axis_props_keys in H as (ax & p & Hax & Hp & ->).
  destruct Hp as [<-|[]]. now exists ax.
Qed.

Lemma yaxis_keys_suffix axes k :
  In k (map fst (axis_props axes yaxis_theme)) ->
  exists ax, In ax axes /\ (k = ax ++ ".showgrid" \/ k = ax ++ ".gridcolor").
Proof.
  intros H. apply axis_props_keys in H as (ax & p & Hax & Hp & ->).
  destruct Hp as [<-|[<-|[]]]; exists ax; auto.
Qed.

(** A property path that is no axis grid setting is decided by the theme
    list, else left as the figure had it. *)
Lemma lookup_apply_layout_other (fig : Figure) (h : Z) (k : string) :
  is_suffix ".showgrid" k = false ->
  is_suffix ".gridcolor" k = false ->
  layout (apply_layout fig h) !! k =
  match assoc k (rev (theme h)) with
  | Some v => Some v
  | None => layout fig !! k
  end.
Proof.
  intros Hs Hg. rewrite layout_apply_layout, !lookup_set_props.
  rewrite assoc_rev_None, assoc_rev_None; [reflexivity| |].
  - intros H. apply yaxis_keys_suffix in H as (ax & _ & [->| ->]);
      rewrite is_suffix_app in *; discriminate.
  - intros H. apply xaxis_keys_suffix in H as (ax & _ & ->).
    rewrite is_suffix_app in Hs. discriminate.
Qed.

(** X1. Whatever layout the figure came with, after [apply_layout] the
    thirteen theme properties hold the theme's values, the height being
    the one passed. *)
Theorem apply_layout_sets_theme (fig : Figure) (h : Z) :
  let l := layout (apply_layout fig h) in
  l !! "height" = Some (LNum h) /\
  l !! "margin.l" = Some (LNum 0) /\
  l !! "margin.r" = Some (LNum 0) /\
  l !! "margin.t" = Some (LNum 40) /\
  l !! "margin.b" = Some (LNum 0) /\
  l !! "template" = Some (LStr "plotly_dark") /\
  l !! "xaxis.rangeslider.visible" = Some (LBool false) /\
  l !! "hovermode" = Some (LStr "x unified") /\
  l !! "uirevision" = Some (LStr "keep") /\
  l !! "paper_bgcolor" = Some (LStr "#0d0b1e") /\
  l !! "plot_bgcolor" = Some (LStr "#0d0b1e") /\
  l !! "font.color" = Some (LStr "#EDEBFF") /\
  l !! "legend.bgcolor" = Some (LStr "rgba(0,0,0,0)").
Proof.
  cbv zeta. repeat split; rewrite lookup_apply_layout_other; reflexivity.
Qed.

(** X2. [apply_layout] hides the grid of every x axis of the figure and,
    on every y axis, sets the grid colour and (unless the name is also an
    x axis) shows the grid. *)
Theorem apply_layout_axis_grids (fig : Figure) (h : Z) :
  let l := layout (apply_layout fig h) in
  (forall ax, In ax (xaxes fig) ->
     l !! (ax ++ ".showgrid") = Some (LBool false)) /\
  (forall ax, In ax (yaxes fig) ->
     l !! (ax ++ ".gridcolor") = Some (LStr "rgba(255,255,255,0.12)")) /\
  (forall ax, In ax (yaxes fig) -> ~ In ax (xaxes fig) ->
     l !! (ax ++ ".showgrid") = Some (LBool true)).
Proof.
  cbv zeta. rewrite layout_apply_layout. repeat split; intros ax Hax.
  - rewrite lookup_set_props.
    rewrite (assoc_constant _ _ (LBool false)); [reflexivity| |].
    + rewrite map_rev, <- in_rev. apply axis_props_keys.
      exists ax, "showgrid". simpl. auto.
    + intros k' v' Hin _. apply in_rev, axis_props_In in Hin
        as (ax' & p & _ & [[= <- <-]|[]] & _). reflexivity.
  - rewrite lookup_set_props, assoc_rev_None.
    + rewrite lookup_set_props.
      rewrite (assoc_constant _ _ (LStr "rgba(255,255,255,0.12)"));
        [reflexivity| |].
      * rewrite map_rev, <- in_rev. apply axis_props_keys.
        exists ax, "gridcolor". simpl. auto.
      * intros k' v' Hin Hk. apply in_rev, axis_props_In in Hin
          as (ax' & p & _ & [[= <- <-]|[[= <- <-]|[]]] & ->);
          [|reflexivity].
        apply (f_equal (is_suffix ".showgrid")) in Hk.
        change (ax' ++ "." ++ "showgrid") with (ax' ++ ".showgrid") in Hk.
        rewrite is_suffix_app, is_suffix_prepend in Hk by (simpl; lia).
        discriminate.
    + intros H. apply xaxis_keys_suffix in H as (ax' & _ & E).
      apply (f_equal (is_suffix ".showgrid")) in E.
      rewrite is_suffix_app, is_suffix_prepend in E by (simpl; lia).
      discriminate.
  - intros Hnx. rewrite lookup_set_props, assoc_rev_None.
    + rewrite lookup_set_props.
      rewrite (assoc_constant _ _ (LBool true)); [reflexivity| |].
      * rewrite map_rev, <- in_rev. apply axis_props_keys.
        exists ax, "showgrid". simpl. auto.
      * intros k' v' Hin Hk. apply in_rev, axis_props_In in Hin
          as (ax' & p & _ & [[= <- <-]|[[= <- <-]|[]]] & ->);
          [reflexivity|].
        apply (f_equal (is_suffix ".showgrid")) in Hk.
        change (ax' ++ "." ++ "gridcolor") with (ax' ++ ".gridcolor") in Hk.
        rewrite is_suffix_app, is_suffix_prepend in Hk by (simpl; lia).
        discriminate.
    + intros H. apply xaxis_keys_suffix in H as (ax' & Hax' & E).
      apply append_inv_tail in E. congruence.
Qed.

(** X3. [apply_layout] leaves the traces and the axes alone, and every
    layout property other than the theme's thirteen and the axes' grid
    settings keeps the value the figure had. *)
Theorem apply_layout_frame (fig : Figure) (h : Z) :
  traces (apply_layout fig h) = traces fig /\
  xaxes (apply_layout fig h) = xaxes fig /\
  yaxes (apply_layout fig h) = yaxes fig /\
  forall k,
    ~ In k theme_keys ->
    is_suffix ".showgrid" k = false ->
    is_suffix ".gridcolor" k = false ->
    layout (apply_layout fig h) !! k = layout fig !! k.
Proof.
  repeat split. intros k Hk Hs Hg.
  rewrite lookup_apply_layout_other by assumption.
  rewrite assoc_rev_None; [reflexivity | exact Hk].
Qed.

Lemma layout_apply_layout_flat (fig : Figure) (h : Z) :
  layout (apply_layout fig h) =
  set_props (theme h ++ axis_props (yaxes fig) yaxis_theme
                     ++ axis_props (xaxes fig) xaxis_theme)%list
            (layout fig).
Proof. rewrite layout_apply_layout, !set_props_app. reflexivity. Qed.

(** X4. Theming a themed figure again gives what theming the original
    with the later height gives: the last call wins, and repeating a call
    changes nothing. *)
Theorem apply_layout_last_wins (fig : Figure) (h1 h2 : Z) :
  apply_layout (apply_layout fig h1) h2 = apply_layout fig h2.
Proof.
  assert (E : layout (apply_layout (apply_layout fig h1) h2)
              = layout (apply_layout fig h2)).
  { rewrite !layout_apply_layout_flat.
    change (xaxes (apply_layout fig h1)) with (xaxes fig).
    change (yaxes (apply_layout fig h1)) with (yaxes fig).
    apply map_eq. intros k. rewrite !lookup_set_props.
    destruct (assoc k (rev (theme h2 ++ _))) eqn:E2; [reflexivity|].
    rewrite assoc_rev_None; [reflexivity|].
    apply assoc_None_iff in E2. rewrite map_rev, <- in_rev in E2.
    rewrite map_app in *. exact E2. }
  change (apply_layout (apply_layout fig h1) h2)
    with (mkFigure (traces fig) (layout (apply_layout (apply_layout fig h1) h2))
                   (xaxes fig) (yaxes fig)).
  rewrite E. reflexivity.
Qed.

(** ** Bounds on the markers *)

Lemma getitem_length {A} (df : DataFrame A) (c : string) (col : list A) :
  well_formed df -> getitem df c = Ok col -> length col = len df.
Proof.
  intros Hwf H. unfold getitem in H.
  destruct (assoc c (df_data df)) eqn:E; [|discriminate]. injection H as ->.
  apply assoc_Some_In in E. unfold well_formed in Hwf.
  rewrite List.Forall_forall in Hwf. apply (Hwf _ E).
Qed.

Lemma tsub_keeps_well_formed (trades : DataFrame cell) :
  well_formed trades -> well_formed (tsub trades).
Proof.
  intros Hwf.
  destruct (Nat.eq_dec (step (len trades)) 1%nat) as [E|E].
  - now rewrite tsub_unsampled.
  - pose proof (step_pos (len trades)) as Hp.
    rewrite tsub_sampled by lia.
    unfold well_formed, iloc_step, len in *; simpl.
    rewrite List.Forall_forall in *. intros [c col] Hin.
    apply in_map_iff in Hin as ([c' col'] & [= <- <-] & Hin). simpl.
    rewrite !length_slice_step by assumption.
    pose proof (Hwf _ Hin) as H. simpl in H. now rewrite H.
Qed.

(** X5. Subsampling keeps the trade table a table: the column names and
    their order are unchanged and every column is still as long as the
    index. *)
Theorem tsub_well_formed (trades : DataFrame cell) :
  well_formed trades ->
  columns (tsub trades) = columns trades /\ well_formed (tsub trades).
Proof.
  intros Hwf. split; [apply columns_tsub | now apply tsub_keeps_well_formed].
Qed.

Lemma tsub_well_formed_witness :
  columns (tsub (DownsamplingSamples.trade_log_of 3000))
    = columns (DownsamplingSamples.trade_log_of 3000) /\
  well_formed (tsub (DownsamplingSamples.trade_log_of 3000)).
Proof.
  apply (tsub_well_formed (DownsamplingSamples.trade_log_of 3000)).
  apply well_formed_trade_log_of.
Defined.

Lemma len_tsub_lt_2400 (trades : DataFrame cell) :
  (len (tsub trades) < 2400)%nat.
Proof.
  destruct (tsub_rows trades) as (_ & Hlen & _). cbv zeta in Hlen.
  rewrite Hlen. set (n := len trades).
  destruct (Nat.lt_ge_cases n 2400) as [Hn|Hn].
  - assert (E : step n = 1%nat) by now apply step_one.
    rewrite E, Nat.div_1_r. lia.
  - unfold step.
    assert (Hq : (2 <= n / 1200)%nat) by (apply Nat.div_le_lower_bound; lia).
    pose proof (Nat.div_mod_eq n 1200) as Hd.
    pose proof (Nat.mod_upper_bound n 1200 ltac:(lia)) as Hr.
    rewrite Nat.max_r by lia. apply Nat.Div0.div_lt_upper_bound. nia.
Qed.

(** X6. However long the trade log, fewer than 2400 rows reach the
    markers; a log of at least 1200 rows keeps at least 1200 of them, and
    from 2400 rows on at most 1800 are kept. *)
Theorem marker_rows_bounded (trades : DataFrame cell) :
  (len (tsub trades) < 2400)%nat /\
  (len (tsub trades) <= len trades)%nat /\
  ((1200 <= len trades)%nat -> (1200 <= len (tsub trades))%nat) /\
  ((2400 <= len trades)%nat -> (len (tsub trades) <= 1800)%nat).
Proof.
  destruct (tsub_rows trades) as (_ & Hlen & _). cbv zeta in Hlen.
  rewrite Hlen. set (n := len trades).
  destruct (Nat.lt_ge_cases n 2400) as [Hn|Hn].
  - assert (E : step n = 1%nat) by now apply step_one.
    rewrite E, Nat.div_1_r. lia.
  - unfold step.
    assert (Hq : (2 <= n / 1200)%nat) by (apply Nat.div_le_lower_bound; lia).
    pose proof (Nat.div_mod_eq n 1200) as Hd.
    pose proof (Nat.mod_upper_bound n 1200 ltac:(lia)) as Hr.
    rewrite Nat.max_r by lia. set (q := (n / 1200)%nat) in *.
    repeat split.
    + apply Nat.Div0.div_lt_upper_bound. nia.
    + apply Nat.Div0.div_le_upper_bound. nia.
    + intros _. apply Nat.div_le_lower_bound; nia.
    + intros _. apply Nat.lt_succ_r, Nat.Div0.div_lt_upper_bound. nia.
Qed.

Lemma price_trace_Ok_Close (price : DataFrame float) (p : Trace) :
  price_trace price = Ok p -> In "Close" (columns price).
Proof.
  unfold price_trace. destruct (issubset _ (columns price)) eqn:E.
  - intros _. rewrite issubset_spec in E. apply E. simpl; tauto.
  - destruct (getitem price "Close") eqn:G; [|discriminate].
    intros _. eapply getitem_Ok_In; eassumption.
Qed.

Lemma fig_price_Ok_Close (price : DataFrame float) (trades : DataFrame cell)
    (fig : Figure) :
  fig_price price trades = Ok fig -> In "Close" (columns price).
Proof.
  unfold fig_price. destruct (price_trace price) eqn:E; [|discriminate].
  intros _. eapply price_trace_Ok_Close; eassumption.
Qed.

Lemma marker_trace_shape (df : DataFrame cell)
    (xcol ycol name symbol color hover : string) (t : Trace) :
  well_formed df ->
  marker_trace (Some df) xcol ycol name symbol color hover = Ok t ->
  exists x y, t = Scattergl x y "markers" name
                    (mkMarker symbol color 6 (mkLine 0 None)) hover /\
              length x = len df /\ length y = len df.
Proof.
  intros Hwf. unfold marker_trace. simpl.
  destruct (getitem df xcol) as [x|] eqn:Ex; [|discriminate]. simpl.
  destruct (getitem df ycol) as [y|] eqn:Ey; [|discriminate]. simpl.
  intros [= <-]. exists x, y. split; [reflexivity|].
  split; eapply getitem_length; eassumption.
Qed.

(** X7. In a composed price chart every marker trace is the entry or the
    exit trace, its x and y columns are equally long, one point per row of
    the subsampled table, hence fewer than 2400 points. *)
Theorem marker_traces_aligned (price : DataFrame float)
    (trades : DataFrame cell) (fig : Figure) :
  well_formed trades ->
  fig_price price trades = Ok fig ->
  forall x y mode name marker hover,
    In (Scattergl x y mode name marker hover) (traces fig) ->
    (name = "Entry" \/ name = "Exit") /\
    length x = length y /\
    length x = len (tsub trades) /\
    (length x < 2400)%nat.
Proof.
  intros Hwf Hfig x y mode name marker hover Hin.
  pose proof (fig_price_Ok_Close _ _ _ Hfig) as Hc.
  destruct (fig_price_traces price trades Hc)
    as (fig' & p & Hfig' & _ & Hm & es & xs & Htr & Hes & Hxs).
  rewrite Hfig in Hfig'. injection Hfig' as <-.
  pose proof (tsub_keeps_well_formed trades Hwf) as Hwf'.
  pose proof (len_tsub_lt_2400 trades) as Hb.
  assert (Hshape : forall t, In t (es ++ xs) ->
    exists x' y' n s c h, (n = "Entry" \/ n = "Exit") /\
      t = Scattergl x' y' "markers" n (mkMarker s c 6 (mkLine 0 None)) h /\
      length x' = len (tsub trades) /\ length y' = len (tsub trades)).
  { intros t Ht. apply in_app_or in Ht as [Ht|Ht].
    - destruct (has_entry trades); [|subst es; destruct Ht].
      destruct Hes as (e & -> & He & _). destruct Ht as [<-|[]].
      apply (marker_trace_shape _ _ _ _ _ _ _ _ Hwf') in He
        as (x' & y' & -> & Hx & Hy).
      exists x', y'. do 4 eexists. split; [left; reflexivity|]. auto.
    - destruct (has_exit trades); [|subst xs; destruct Ht].
      destruct Hxs as (e & -> & He & _). destruct Ht as [<-|[]].
      apply (marker_trace_shape _ _ _ _ _ _ _ _ Hwf') in He
        as (x' & y' & -> & Hx & Hy).
      exists x', y'. do 4 eexists. split; [right; reflexivity|]. auto. }
  rewrite Htr in Hin. simpl in Hin. destruct Hin as [E|Hin].
  - subst p. specialize (Hm name). simpl in Hm.
    rewrite String.eqb_refl in Hm. discriminate.
  - apply Hshape in Hin as (x' & y' & n & s & c & h & Hn & [= -> -> _ -> _ _] & Hx & Hy).
    repeat split; [assumption|congruence|assumption|lia].
Qed.

Lemma marker_traces_aligned_witness :
  ("Entry" = "Entry" \/ "Entry" = "Exit") /\
  length [CInt 0; CInt 1] = length [CFloat 100; CFloat 110] /\
  length [CInt 0; CInt 1] = len (tsub Samples.trade_log) /\
  (length [CInt 0; CInt 1] < 2400)%nat.
Proof.
  eapply (marker_traces_aligned MarkerSamples.price Samples.trade_log).
  - unfold well_formed. repeat constructor.
  - reflexivity.
  - simpl. right. left. reflexivity.
Defined.

(** ** Extraction and the price trace *)

Lemma ohlc_total (pf : Portfolio) (v : Series) :
  pf_value pf = Some v -> exists price, ohlc pf = Ok price.
Proof.
  intros Hv. rewrite ohlc_by_fields, Hv.
  destruct (pf_open pf), (pf_high pf), (pf_low pf), (pf_close pf); eauto.
Qed.

Lemma base_data_outcome_aux (pf : Portfolio) :
  match pf_trades pf, pf_value pf with
  | None, _ => base_data pf = Raise (AttributeError "trades")
  | Some _, None => base_data pf = Raise (AttributeError "value")
  | Some _, Some [] => base_data pf = Raise IndexError
  | Some t, Some (v0 :: vs) =>
      exists price,
        ohlc pf = Ok price /\
        base_data pf =
        Ok (mkBaseData t (v0 :: vs)
              (map (fun v => (v / v0 - 1)%float) (v0 :: vs)) price)
  end.
Proof.
  unfold base_data.
  destruct (pf_trades pf) as [t|]; [|reflexivity].
  destruct (pf_value pf) as [[|v0 vs]|] eqn:Ev; try reflexivity.
  destruct (ohlc_total pf _ Ev) as [price ->]. eauto.
Qed.

(** X8. The base-data block fails in source order: without the trade
    log it raises for [trades], else without the equity value for
    [value], else on an empty equity series with [IndexError]; otherwise
    it succeeds, passing trades and value through, and the price frame
    cannot fail. *)
Theorem base_data_outcome (pf : Portfolio) :
  match pf_trades pf, pf_value pf with
  | None, _ => base_data pf = Raise (AttributeError "trades")
  | Some _, None => base_data pf = Raise (AttributeError "value")
  | Some _, Some [] => base_data pf = Raise IndexError
  | Some t, Some (v0 :: vs) =>
      exists price,
        ohlc pf = Ok price /\
        base_data pf =
        Ok (mkBaseData t (v0 :: vs)
              (map (fun v => (v / v0 - 1)%float) (v0 :: vs)) price)
  end.
Proof.
  unfold base_data.
  destruct (pf_trades pf) as [t|]; [|reflexivity].
  destruct (pf_value pf) as [[|v0 vs]|] eqn:Ev; try reflexivity.
  destruct (ohlc_total pf _ Ev) as [price ->]. eauto.
Qed.

Lemma pad_length (s : Series) : pad (length s) s = s.
Proof. induction s as [|v s IH]; simpl; [reflexivity | now rewrite IH]. Qed.

(** X9. What the price chart draws, from the portfolio's attributes:
    candles named "Price" over the four series (padded with NaN to the
    longest) when open, high, low and close are all exposed; otherwise a
    line named "Close" over exactly the close series, or, without close,
    over exactly the equity value series. *)
Theorem price_trace_of_portfolio (pf : Portfolio) :
  (ohlc pf ≫= price_trace) =
  match pf_open pf, pf_high pf, pf_low pf, pf_close pf with
  | Some o, Some h, Some l, Some c =>
      let n := Nat.max (length o) (Nat.max (length h)
                 (Nat.max (length l) (Nat.max (length c) 0))) in
      Ok (Candlestick (range n) (pad n o) (pad n h) (pad n l) (pad n c)
            "Price" "#7B61FF" "#FF4C4C" true)
  | _, _, _, Some c =>
      Ok (Scatter (range (length c)) c "lines" "Close"
            (mkLine 1.6 (Some "#7B61FF")))
  | _, _, _, None =>
      match pf_value pf with
      | Some v =>
          Ok (Scatter (range (length v)) v "lines" "Close"
                (mkLine 1.6 (Some "#7B61FF")))
      | None => Raise (AttributeError "value")
      end
  end.
Proof.
  rewrite ohlc_by_fields.
  assert (L : forall s : Series,
    (Ok (pd_DataFrame [("Close", s)]) ≫= price_trace) =
    Ok (Scatter (range (length s)) s "lines" "Close"
          (mkLine 1.6 (Some "#7B61FF")))).
  { intros s. unfold price_trace, pd_DataFrame, getitem, columns; simpl.
    rewrite Nat.max_0_r, pad_length. reflexivity. }
  destruct (pf_open pf), (pf_high pf), (pf_low pf), (pf_close pf);
    try apply L; try (destruct (pf_value pf); [apply L | reflexivity]).
  reflexivity.
Qed.

(** X10. On a price frame the extractor built, composing the price chart
    never raises, whatever the trade log's columns. *)
Theorem fig_price_total_on_extracted (pf : Portfolio)
    (price : DataFrame float) (trades : DataFrame cell) :
  ohlc pf = Ok price ->
  exists fig, fig_price price trades = Ok fig /\
              (1 <= length (traces fig) <= 3)%nat.
Proof.
  intros H. pose proof (ohlc_Ok_Close pf price H) as Hc.
  destruct (fig_price_traces price trades Hc)
    as (fig & p & Hfig & _ & _ & es & xs & Htr & Hes & Hxs).
  exists fig. split; [assumption|]. rewrite Htr, !length_app. simpl.
  destruct (has_entry trades); [destruct Hes as (e & -> & _)|subst es];
    (destruct (has_exit trades); [destruct Hxs as (x & -> & _)|subst xs]);
    simpl; lia.
Qed.

Lemma fig_price_total_on_extracted_witness :
  exists fig, fig_price MarkerSamples.price MarkerSamples.no_pairs = Ok fig /\
              (1 <= length (traces fig) <= 3)%nat.
Proof.
  apply (fig_price_total_on_extracted Samples.equity_only
           MarkerSamples.price MarkerSamples.no_pairs).
  reflexivity.
Defined.

(** ** Outcome of a render pass *)

Lemma bind_snd {A B} (m : Script A) (k : A -> Script B) (st : St) :
  snd ((m ≫= k) st) =
  match m st with
  | (st', Ok a) => snd (k a st')
  | (_, Raise e) => Raise e
  end.
Proof. rewrite script_bind_run. destruct (m st) as [st' [a|e]]; reflexivity. Qed.

Lemma tab1_result (pf : Portfolio) (price : DataFrame float)
    (trades : DataFrame cell) (st : St) :
  snd (tab1 pf price trades st) =
  match fig_price price trades with
  | Raise e => Raise e
  | Ok _ =>
      match pf_plot_cumulative_returns pf with
      | None => Raise (AttributeError "plot_cumulative_returns")
      | Some _ =>
          match pf_plot_drawdowns pf with
          | None => Raise (AttributeError "plot_drawdowns")
          | Some _ => Ok tt
          end
      end
  end.
Proof.
  unfold tab1.
  destruct (fig_price price trades), (pf_plot_cumulative_returns pf),
    (pf_plot_drawdowns pf); run_script; reflexivity.
Qed.

Lemma tab2_result (selected : string) (pf : Portfolio) (st : St) :
  snd (tab2 selected pf st) =
  match pf_total_return pf with
  | None => Raise (AttributeError "total_return")
  | Some _ =>
      match pf_sharpe_ratio pf with
      | None => Raise (AttributeError "sharpe_ratio")
      | Some _ =>
          match pf_max_drawdown pf with
          | None => Raise (AttributeError "max_drawdown")
          | Some _ =>
              match pf_stats pf with
              | None => Raise (AttributeError "stats")
              | Some _ => Ok tt
              end
          end
      end
  end.
Proof.
  unfold tab2. rewrite stats_eq.
  destruct (pf_total_return pf), (pf_sharpe_ratio pf), (pf_max_drawdown pf),
    (pf_stats pf); run_script; reflexivity.
Qed.

(** The pass ends with the exception of the first step that fails, in
    script order. *)
Lemma render_pass_result (fs : Storage) (selected : string) (st : St) :
  snd (render_pass fs selected st) =
  match snd (load_portfolio fs selected st) with
  | Raise e => Raise e
  | Ok pf =>
      match base_data pf with
      | Raise e => Raise e
      | Ok d =>
          match snd (tab1 pf (bd_ohlc d) (bd_trades d) st) with
          | Raise e => Raise e
          | Ok _ => snd (tab2 selected pf st)
          end
      end
  end.
Proof.
  rewrite load_portfolio_result. unfold render_pass. rewrite dashboard_run.
  destruct (load_outcome fs selected (st_cache st) (st_reads st))
    as [[c' r'] [pf|e]]; [|reflexivity]. cbn [snd].
  destruct (base_data pf) as [d|e]; [|reflexivity].
  rewrite bind_emit, bind_snd.
  rewrite (surjective_pairing (tab1 _ _ _ _)), !tab1_result.
  destruct (fig_price _ _), (pf_plot_cumulative_returns pf),
    (pf_plot_drawdowns pf); try reflexivity.
  rewrite bind_snd, (surjective_pairing (tab2 _ _ _)), !tab2_result.
  destruct (pf_total_return pf), (pf_sharpe_ratio pf), (pf_max_drawdown pf),
    (pf_stats pf); reflexivity.
Qed.

(** X11. A render pass completes exactly when the loader returns a
    portfolio that has the trade log, a non-empty equity value series,
    both plotting routines, the three headline scalars and the statistics
    routine; the open, high, low and close attributes are never required. *)
Theorem render_pass_succeeds_iff (fs : Storage) (selected : string) (st : St) :
  snd (render_pass fs selected st) = Ok tt <->
  exists pf,
    snd (load_portfolio fs selected st) = Ok pf /\
    is_Some (pf_trades pf) /\
    (exists v0 vs, pf_value pf = Some (v0 :: vs)) /\
    is_Some (pf_plot_cumulative_returns pf) /\
    is_Some (pf_plot_drawdowns pf) /\
    is_Some (pf_total_return pf) /\
    is_Some (pf_sharpe_ratio pf) /\
    is_Some (pf_max_drawdown pf) /\
    is_Some (pf_stats pf).
Proof.
  rewrite render_pass_result. split.
  - destruct (snd (load_portfolio fs selected st)) as [pf|e]; [|discriminate].
    pose proof (base_data_outcome_aux pf) as Hb.
    destruct (base_data pf) as [d|e] eqn:Ed; [|discriminate].
    rewrite tab1_result, tab2_result. intros H. exists pf.
    split; [reflexivity|].
    destruct (pf_trades pf); [|discriminate Hb].
    destruct (pf_value pf) as [[|v0 vs]|]; try discriminate Hb.
    destruct (fig_price _ _); [|discriminate].
    destruct (pf_plot_cumulative_returns pf); [|discriminate].
    destruct (pf_plot_drawdowns pf); [|discriminate].
    destruct (pf_total_return pf); [|discriminate].
    destruct (pf_sharpe_ratio pf); [|discriminate].
    destruct (pf_max_drawdown pf); [|discriminate].
    destruct (pf_stats pf); [|discriminate].
    repeat split; eauto.
  - intros (pf & -> & [t Ht] & (v0 & vs & Hv) & [r Hr] & [dd Hdd] & [a Ha]
            & [b Hb] & [c Hc] & [f Hf]).
    pose proof (base_data_outcome_aux pf) as Hbd. rewrite Ht, Hv in Hbd.
    destruct Hbd as (price & Ho & ->).
    rewrite tab1_result, tab2_result, Hr, Hdd, Ha, Hb, Hc, Hf. cbn [bd_ohlc bd_trades].
    destruct (fig_price_total_aux pf price t Ho) as [fig ->]. reflexivity.
Qed.

(** X12. An exception in the metrics tab comes after the charts: when
    the series and both plots are there but a headline scalar or the
    statistics routine is missing, the pass ends with [AttributeError]
    and the page still holds the three charts, in order. *)
Theorem charts_survive_metrics_failure (fs : Storage) (selected : string)
    (st : St) (pf : Portfolio) (d : BaseData) (r dd : Figure) :
  snd (load_portfolio fs selected st) = Ok pf ->
  base_data pf = Ok d ->
  pf_plot_cumulative_returns pf = Some r ->
  pf_plot_drawdowns pf = Some dd ->
  pf_total_return pf = None \/ pf_sharpe_ratio pf = None \/
  pf_max_drawdown pf = None \/ pf_stats pf = None ->
  (exists name, snd (render_pass fs selected st) = Raise (AttributeError name)) /\
  exists fig,
    fig_price (bd_ohlc d) (bd_trades d) = Ok fig /\
    charts (st_page (fst (render_pass fs selected st)))
    = [fig; apply_layout r 340; apply_layout dd 340].
Proof.
  intros Hl Hd Hr Hdd Hmiss.
  destruct (fig_price_total_aux pf (bd_ohlc d) (bd_trades d)
              (base_data_ohlc pf d Hd)) as [fig Hfig].
  split.
  - rewrite render_pass_result, Hl, Hd, tab1_result, Hfig, Hr, Hdd, tab2_result.
    destruct (pf_total_return pf); [|eauto].
    destruct (pf_sharpe_ratio pf); [|eauto].
    destruct (pf_max_drawdown pf); [|eauto].
    destruct (pf_stats pf); [|eauto].
    destruct Hmiss as [H|[H|[H|H]]]; discriminate.
  - exists fig. split; [assumption|].
    rewrite (render_pass_charts _ _ _ _ _ Hl Hd). unfold chart_specs.
    rewrite Hfig, Hr, Hdd. reflexivity.
Qed.

Lemma charts_survive_metrics_failure_witness :
  (exists name,
     snd (render_pass (Samples.disk ExtraSamples.no_total_return) "SAF1"
            Samples.fresh) = Raise (AttributeError name)) /\
  exists fig,
    fig_price (bd_ohlc (ChartSamples.base_of ExtraSamples.no_total_return))
              (bd_trades (ChartSamples.base_of ExtraSamples.no_total_return))
      = Ok fig /\
    charts (st_page (fst (render_pass
      (Samples.disk ExtraSamples.no_total_return) "SAF1" Samples.fresh)))
    = [fig; apply_layout go_Figure 340; apply_layout go_Figure 340].
Proof.
  apply (charts_survive_metrics_failure
           (Samples.disk ExtraSamples.no_total_return) "SAF1" Samples.fresh
           ExtraSamples.no_total_return
           (ChartSamples.base_of ExtraSamples.no_total_return)
           go_Figure go_Figure); try reflexivity.
  left. reflexivity.
Defined.

(** ** The loader and storage *)

(** X13. A load that fails propagates the storage exception, costs one
    read and caches nothing: the next call with the same identifier goes
    to storage again and returns whatever storage holds by then. *)
Theorem failed_load_is_retried (fs fs' : Storage) (name : string) (st : St)
    (e : exn) :
  st_cache st !! name = None ->
  fs (backtest_path name) = Raise e ->
  let st1 := fst (load_portfolio fs name st) in
  snd (load_portfolio fs name st) = Raise e /\
  st_cache st1 = st_cache st /\
  st_reads st1 = (st_reads st ++ [backtest_path name])%list /\
  snd (load_portfolio fs' name st1) = fs' (backtest_path name) /\
  st_reads (fst (load_portfolio fs' name st1))
  = (st_reads st ++ [backtest_path name; backtest_path name])%list.
Proof.
  intros Hc Hf. destruct st as [c r p]. simpl in Hc. cbv zeta.
  rewrite load_portfolio_outcome. unfold load_outcome. rewrite Hc, Hf.
  cbn [fst snd st_cache st_reads]. repeat split.
  - rewrite load_portfolio_outcome. unfold load_outcome. rewrite Hc.
    destruct (fs' (backtest_path name)); reflexivity.
  - rewrite load_portfolio_outcome. unfold load_outcome. rewrite Hc.
    destruct (fs' (backtest_path name)); cbn [fst st_reads];
      now rewrite <- app_assoc.
Qed.

Lemma failed_load_is_retried_witness :
  let st1 := fst (load_portfolio ExtraSamples.unreadable "SAF1" Samples.fresh) in
  snd (load_portfolio ExtraSamples.unreadable "SAF1" Samples.fresh)
    = Raise (UnpicklingError "data/saf1_backtest.pkl") /\
  st_cache st1 = st_cache Samples.fresh /\
  st_reads st1 = (st_reads Samples.fresh ++ [backtest_path "SAF1"])%list /\
  snd (load_portfolio (Samples.disk Samples.equity_only) "SAF1" st1)
    = Samples.disk Samples.equity_only (backtest_path "SAF1") /\
  st_reads (fst (load_portfolio (Samples.disk Samples.equity_only) "SAF1" st1))
  = (st_reads Samples.fresh ++ [backtest_path "SAF1"; backtest_path "SAF1"])%list.
Proof.
  apply (failed_load_is_retried ExtraSamples.unreadable
           (Samples.disk Samples.equity_only) "SAF1" Samples.fresh
           (UnpicklingError "data/saf1_backtest.pkl")); reflexivity.
Defined.

(** X14. While storage does not change, memoisation is invisible: if
    every cached object is what storage holds for its identifier, the
    loader returns exactly what reading storage would, and the cache
    still agrees with storage afterwards. *)
Theorem memoisation_transparent (fs : Storage) (name : string) (st : St) :
  cache_agrees fs st ->
  snd (load_portfolio fs name st) = fs (backtest_path name) /\
  cache_agrees fs (fst (load_portfolio fs name st)).
Proof.
  intros Ha. destruct st as [c r p]. rewrite load_portfolio_outcome.
  unfold load_outcome. unfold cache_agrees in *. simpl in Ha.
  destruct (c !! name) as [pf|] eqn:Ec.
  - cbn [fst snd st_cache]. split; [symmetry; now apply Ha | exact Ha].
  - destruct (fs (backtest_path name)) as [pf|e] eqn:Ef; cbn [fst snd st_cache].
    + split; [reflexivity|]. intros n q Hq.
      destruct (String.eqb_spec name n) as [<-|Hne].
      * rewrite lookup_insert_eq in Hq. congruence.
      * rewrite lookup_insert_ne in Hq by assumption. now apply Ha.
    + split; [reflexivity | exact Ha].
Qed.

Lemma memoisation_transparent_witness :
  snd (load_portfolio (Samples.disk Samples.equity_only) "SAF1"
         DelegatedSamples.cached_saf1)
    = Samples.disk Samples.equity_only (backtest_path "SAF1") /\
  cache_agrees (Samples.disk Samples.equity_only)
    (fst (load_portfolio (Samples.disk Samples.equity_only) "SAF1"
            DelegatedSamples.cached_saf1)).
Proof.
  apply (memoisation_transparent (Samples.disk Samples.equity_only) "SAF1"
           DelegatedSamples.cached_saf1).
  intros name pf H. simpl in H.
  apply lookup_singleton_Some in H as [<- <-]. reflexivity.
Defined.

Lemma lower_ascii_idem (c : ascii) : lower_ascii (lower_ascii c) = lower_ascii c.
Proof. destruct c as [[] [] [] [] [] [] [] []]; reflexivity. Qed.

Lemma lower_idem (s : string) : lower (lower s) = lower s.
Proof.
  induction s as [|c s IH]; simpl; [reflexivity|].
  now rewrite lower_ascii_idem, IH.
Qed.

(** X15. The artifact path depends on the identifier only up to ASCII
    case: two identifiers resolve to the same file exactly when their
    lower-cased forms coincide, and lower-casing an identifier does not
    change its path. *)
Theorem backtest_path_case_insensitive (a b : string) :
  (backtest_path a = backtest_path b <-> lower a = lower b) /\
  backtest_path (lower a) = backtest_path a.
Proof.
  unfold backtest_path. split; [split|].
  - intros H. apply (append_inv_tail (lower a) (lower b) "_backtest.pkl").
    now injection H.
  - now intros ->.
  - now rewrite lower_idem.
Qed.

Lemma bind_process_state {A B} (m : Script A) (k : A -> Script B) (st : St) :
  (forall a st', process_state (fst (k a st')) = process_state st') ->
  process_state (fst ((m ≫= k) st)) = process_state (fst (m st)).
Proof.
  intros H. rewrite script_bind_run. destruct (m st) as [st' [a|e]]; simpl; auto.
Qed.

Lemma tab1_process_state (pf : Portfolio) (price : DataFrame float)
    (trades : DataFrame cell) (st : St) :
  process_state (fst (tab1 pf price trades st)) = process_state st.
Proof.
  unfold tab1.
  destruct (fig_price price trades), (pf_plot_cumulative_returns pf),
    (pf_plot_drawdowns pf); run_script; reflexivity.
Qed.

Lemma tab2_process_state (selected : string) (pf : Portfolio) (st : St) :
  process_state (fst (tab2 selected pf st)) = process_state st.
Proof.
  unfold tab2. rewrite stats_eq.
  destruct (pf_total_return pf), (pf_sharpe_ratio pf), (pf_max_drawdown pf),
    (pf_stats pf); run_script; reflexivity.
Qed.

(** X16. The only trace a render pass leaves in the process is the
    loader's: it reads storage exactly once when the selection is not
    cached and not at all when it is, it never drops a cache entry, and
    what an earlier pass rendered does not reach the new page. *)
Theorem render_pass_process_effect (fs : Storage) (selected : string) (st : St) :
  process_state (fst (render_pass fs selected st))
    = process_state (fst (load_portfolio fs selected st)) /\
  st_reads (fst (render_pass fs selected st))
    = match st_cache st !! selected with
      | Some _ => st_reads st
      | None => (st_reads st ++ [backtest_path selected])%list
      end /\
  (forall name pf, st_cache st !! name = Some pf ->
     st_cache (fst (render_pass fs selected st)) !! name = Some pf) /\
  (forall page,
     render_pass fs selected (mkSt (st_cache st) (st_reads st) page)
     = render_pass fs selected st).
Proof.
  assert (E : process_state (fst (render_pass fs selected st))
              = process_state (fst (load_portfolio fs selected st))).
  { destruct st as [c r p]. unfold render_pass. cbn [st_cache st_reads].
    rewrite dashboard_run, load_portfolio_outcome.
    destruct (load_outcome fs selected c r) as [[c' r'] [pf|e]]; [|reflexivity].
    destruct (base_data pf) as [d|e]; [|reflexivity].
    rewrite bind_emit, bind_process_state.
    - rewrite tab1_process_state. reflexivity.
    - intros [] st'. rewrite bind_process_state; [apply tab2_process_state|].
      intros [] st''. reflexivity. }
  split; [exact E|]. split; [|split].
  - apply (f_equal snd) in E. unfold process_state in E. cbn [snd] in E.
    rewrite E. destruct st as [c r p]. rewrite load_portfolio_outcome.
    unfold load_outcome. cbn [st_cache st_reads].
    destruct (c !! selected); [reflexivity|].
    destruct (fs (backtest_path selected)); reflexivity.
  - intros name pf H. apply (f_equal fst) in E. unfold process_state in E.
    cbn [fst] in E. rewrite E. now apply load_portfolio_keeps.
  - intros page. reflexivity.
Qed.

(** ** Degenerate equity series *)

(** X17. An equity series that starts at zero does not raise: float
    division by zero yields no exception, the first return is NaN (0/0)
    and the series keeps its length. *)
Theorem returns_zero_start (v0 : float) (rest : Series) :
  (v0 =? 0)%float = true ->
  exists rets,
    returns (v0 :: rest) = Ok (nan :: rets) /\ length rets = length rest.
Proof.
  intros H. rewrite FloatAxioms.eqb_spec in H.
  assert (E : (v0 / v0 - 1)%float = nan).
  { rewrite <- (SF2Prim_Prim2SF v0).
    destruct (Prim2SF v0) as [[]|[]| |[] m e]; vm_compute in H;
      try discriminate H; reflexivity. }
  unfold returns. simpl. rewrite E.
  eexists. split; [reflexivity | apply length_map].
Qed.

Lemma returns_zero_start_witness :
  exists rets,
    returns [0; 110; 99]%float = Ok (nan :: rets) /\
    length rets = length [110; 99]%float.
Proof. apply (returns_zero_start 0%float [110; 99]%float). reflexivity. Defined.

(** What a zero start does to the later returns. *)
Example returns_zero_start_values :
  returns [0; 110; 0; -5]%float = Ok [nan; infinity; nan; neg_infinity].
Proof. reflexivity. Qed.

(** ** Rounding in the metrics strings *)

Lemma round_half_even_tie (a b : Z) :
  0 < b -> 2 * Z.abs (b * round_half_even a b - a) = b ->
  Z.even (round_half_even a b) = true.
Proof.
  intros Hb. unfold round_half_even.
  pose proof (Z.div_mod a b ltac:(lia)) as E.
  pose proof (Z.mod_pos_bound a b Hb) as Hr.
  destruct (Z.compare_spec (2 * (a mod b)) b) as [H|H|H].
  - destruct (Z.even (a / b)) eqn:Ev; [trivial|]. intros _.
    rewrite Z.even_add, Ev. reflexivity.
  - intros T. nia.
  - intros T. nia.
Qed.

(** X18. For a finite nonzero float [(-1)^s * m * 2^e] the [.2f] string
    is the sign, then the number [N] of hundredths nearest to the exact
    binary value, printed as [N / 100], a point and two digits; when the
    value lies exactly between two hundredths, [N] is the even one. *)
Theorem format_2f_rounds_to_nearest (x : float) (s : bool) (m : positive)
    (e : Z) :
  Prim2SF x = S754_finite s m e ->
  let N := hundredths m e in
  format_2f x = fixed2 s N /\
  0 <= N /\
  match e with
  | Zneg p =>
      2 * Z.abs (2 ^ Z.pos p * N - 100 * Z.pos m) <= 2 ^ Z.pos p /\
      (2 * Z.abs (2 ^ Z.pos p * N - 100 * Z.pos m) = 2 ^ Z.pos p ->
       Z.even N = true)
  | _ => N = 100 * Z.pos m * 2 ^ e
  end.
Proof.
  intros H. cbv zeta. unfold format_2f. rewrite H.
  split; [reflexivity|]. split; [apply hundredths_nonneg|].
  destruct e as [|p|p]; try reflexivity.
  assert (Hp : 0 < 2 ^ Z.pos p) by (apply Z.pow_pos_nonneg; lia).
  split; [now apply round_half_even_nearest | now apply round_half_even_tie].
Qed.

Lemma format_2f_rounds_to_nearest_witness :
  let N := hundredths 4503599627370496 (-55) in
  format_2f 0.125 = fixed2 false N /\
  0 <= N /\
  2 * Z.abs (2 ^ 55 * N - 100 * 4503599627370496) <= 2 ^ 55 /\
  (2 * Z.abs (2 ^ 55 * N - 100 * 4503599627370496) = 2 ^ 55 ->
   Z.even N = true).
Proof.
  apply (format_2f_rounds_to_nearest 0.125 false 4503599627370496 (-55)).
  reflexivity.
Defined.

(** ** Pages *)

(** X19. Composing the price chart never reads an unbound name and never
    fails on the trade log: for every price frame and trade log, the only
    exception it can raise is a [KeyError] for a price column, and then
    the frame has no Close column. *)
Theorem fig_price_only_KeyError (price : DataFrame float)
    (trades : DataFrame cell) (e : exn) :
  fig_price price trades = Raise e ->
  (exists k, e = KeyError k /\ In k ["Open"; "High"; "Low"; "Close"]) /\
  ~ In "Close" (columns price).
Proof.
  intros H. split.
  - destruct (price_trace price) as [p|e'] eqn:Hp.
    + pose proof (price_trace_Ok_Close price p Hp) as Hc.
      destruct (fig_price_traces price trades Hc) as (fig & _ & Hfig & _).
      congruence.
    + unfold fig_price in H. rewrite Hp in H. simpl in H. injection H as <-.
      unfold price_trace, getitem in Hp.
      destruct (issubset _ (columns price)).
      * destruct (assoc "Open" _); simpl in Hp;
          [|injection Hp as <-; eexists; split; [reflexivity | simpl; tauto]].
        destruct (assoc "High" _); simpl in Hp;
          [|injection Hp as <-; eexists; split; [reflexivity | simpl; tauto]].
        destruct (assoc "Low" _); simpl in Hp;
          [|injection Hp as <-; eexists; split; [reflexivity | simpl; tauto]].
        destruct (assoc "Close" _); simpl in Hp;
          [discriminate|injection Hp as <-; eexists; split; [reflexivity | simpl; tauto]].
      * destruct (assoc "Close" _); simpl in Hp; [discriminate|].
        injection Hp as <-. eexists; split; [reflexivity | simpl; tauto].
  - intros Hc.
    destruct (fig_price_traces price trades Hc) as (fig & _ & Hfig & _).
    congruence.
Qed.

Lemma fig_price_only_KeyError_witness :
  (exists k, KeyError "Close" = KeyError k /\
             In k ["Open"; "High"; "Low"; "Close"]) /\
  ~ In "Close" (columns (pd_DataFrame [("Open", Samples.equity)])).
Proof.
  apply (fig_price_only_KeyError (pd_DataFrame [("Open", Samples.equity)])
           Samples.trade_log (KeyError "Close")).
  reflexivity.
Defined.

(** X20. When the loader or the base-data block raises, the pass ends
    with that exception and the page holds the header only: title and
    sidebar, no tabs, no chart, no metric. *)
Theorem early_failure_renders_header_only (fs : Storage) (selected : string)
    (st : St) (e : exn) :
  (snd (load_portfolio fs selected st) ≫= base_data) = Raise e ->
  snd (render_pass fs selected st) = Raise e /\
  st_page (fst (render_pass fs selected st)) = page_header.
Proof.
  rewrite load_portfolio_result. unfold render_pass. rewrite dashboard_run.
  destruct (load_outcome fs selected (st_cache st) (st_reads st))
    as [[c' r'] [pf|e']]; cbn [snd].
  - change (Ok pf ≫= base_data) with (base_data pf).
    destruct (base_data pf) as [d|e'']; [discriminate|].
    intros [= ->]. split; reflexivity.
  - intros [= ->]. split; reflexivity.
Qed.

Lemma early_failure_renders_header_only_witness :
  snd (render_pass (Samples.disk Samples.equity_only) "SAF3" Samples.fresh)
    = Raise (FileNotFoundError "data/saf3_backtest.pkl") /\
  st_page (fst (render_pass (Samples.disk Samples.equity_only) "SAF3"
                  Samples.fresh)) = page_header.
Proof.
  apply (early_failure_renders_header_only (Samples.disk Samples.equity_only)
           "SAF3" Samples.fresh (FileNotFoundError "data/saf3_backtest.pkl")).
  reflexivity.
Defined.

Lemma bind_assoc {A B C} (m : Script A) (k1 : A -> Script B)
    (k2 : B -> Script C) (st : St) :
  ((m ≫= k1) ≫= k2) st = (m ≫= fun a => k1 a ≫= k2) st.
Proof.
  rewrite !script_bind_run. destruct (m st) as [st' [a|e]]; reflexivity.
Qed.

Ltac run_nested :=
  repeat first [ rewrite bind_assoc | progress run_script ].

(** X21. A pass over a complete portfolio renders, in this order: the
    header, the two tabs, the charts tab (price chart, cumulative
    returns, drawdowns, each re-themed, with dividers between), the
    metrics tab (three metrics, then the statistics table) and the
    footer. *)
Theorem complete_pass_page (fs : Storage) (selected : string) (st : St)
    (pf : Portfolio) (d : BaseData) (r dd : Figure) (tr sr md : float)
    (f : Settings -> Table) :
  snd (load_portfolio fs selected st) = Ok pf ->
  base_data pf = Ok d ->
  pf_plot_cumulative_returns pf = Some r ->
  pf_plot_drawdowns pf = Some dd ->
  pf_total_return pf = Some tr ->
  pf_sharpe_ratio pf = Some sr ->
  pf_max_drawdown pf = Some md ->
  pf_stats pf = Some f ->
  exists fig,
    fig_price (bd_ohlc d) (bd_trades d) = Ok fig /\
    snd (render_pass fs selected st) = Ok tt /\
    st_page (fst (render_pass fs selected st)) =
    (page_header ++ [ETabs ["Trading Graphs"; "Metrics & Statistics"]]
     ++ charts_elements fig r dd
     ++ metrics_elements selected tr sr md (f (mkSettings 0 "1D"))
     ++ [ECaption footer])%list.
Proof.
  intros Hl Hd Hr Hdd Htr Hsr Hmd Hf.
  destruct (fig_price_total_aux pf (bd_ohlc d) (bd_trades d)
              (base_data_ohlc pf d Hd)) as [fig Hfig].
  exists fig. split; [assumption|].
  rewrite load_portfolio_result in Hl.
  unfold render_pass. rewrite dashboard_run.
  destruct (load_outcome fs selected (st_cache st) (st_reads st))
    as [[c' r'] res]; cbn [snd] in Hl; subst res. rewrite Hd.
  unfold tab1, tab2. rewrite stats_eq, Hfig, Hr, Hdd, Htr, Hsr, Hmd, Hf.
  run_nested. unfold emit. cbn [fst snd st_page st_cache st_reads].
  split; [reflexivity|].
  unfold page_header, charts_elements, metrics_elements.
  rewrite <- !app_assoc. reflexivity.
Qed.

Lemma complete_pass_page_witness :
  exists fig,
    fig_price (bd_ohlc (ChartSamples.base_of MetricsSamples.portfolio))
              (bd_trades (ChartSamples.base_of MetricsSamples.portfolio))
      = Ok fig /\
    snd (render_pass (Samples.disk MetricsSamples.portfolio) "SAF1"
           Samples.fresh) = Ok tt /\
    st_page (fst (render_pass (Samples.disk MetricsSamples.portfolio) "SAF1"
                    Samples.fresh)) =
    (page_header ++ [ETabs ["Trading Graphs"; "Metrics & Statistics"]]
     ++ charts_elements fig go_Figure go_Figure
     ++ metrics_elements "SAF1" 0.125 1.25 (-0.0625)
          (MetricsSamples.stats_series (mkSettings 0 "1D"))
     ++ [ECaption footer])%list.
Proof.
  apply (complete_pass_page (Samples.disk MetricsSamples.portfolio) "SAF1"
           Samples.fresh MetricsSamples.portfolio
           (ChartSamples.base_of MetricsSamples.portfolio)
           go_Figure go_Figure 0.125 1.25 (-0.0625)
           MetricsSamples.stats_series); reflexivity.
Defined.
